(** * llm-dataset-generator: the parsing, answering and formatting pipeline

    A shallow embedding of [generator/questions.py], [generator/answers.py],
    [generator/utils.py] and [main.py], and the properties of the
    specification that are stated about them.

    Conventions of the embedding.
    - A Python [str] is a [string]; a character is a code point below 256
      (Latin-1), on which the character tables of the Python runtime
      ([str.isspace], [str.isdigit], [str.lower], the classes [\s] and [\d] of
      [re]) are the finite tables written out in [Module Py].
    - Calls that leave the process (the model-serving client, the file
      system) are oracles over an abstract world; a computation threads the
      world and either returns or raises.
    - Logging is not modelled: no function of the pipeline reads a log. *)

From Stdlib Require Import String Ascii List Bool Arith NArith ZArith Lia.
From Stdlib Require Import Floats DecimalString.
Import ListNotations.

Local Open Scope string_scope.
Local Open Scope bool_scope.

(* ===================================================================== *)
(** * The part of the Python runtime the pipeline relies on               *)
(* ===================================================================== *)

Module Py.

(** ** Character tables (code points 0..255) *)

Definition code (c : ascii) : N := N_of_ascii c.

Definition between (lo hi : N) (c : ascii) : bool :=
  (lo <=? code c)%N && (code c <=? hi)%N.

Definition is_code (n : N) (c : ascii) : bool := (code c =? n)%N.

(** [str.isspace], also the class [\s] of [re] on [str] patterns:
    TAB..CR, FS..US, SPACE, NEL and NBSP. *)
Definition isspace (c : ascii) : bool :=
  between 9 13 c || between 28 31 c || is_code 32 c
  || is_code 133 c || is_code 160 c.

(** The class [\d] of [re] ([str.isdecimal]): only 0..9 below 256. *)
Definition isdecimal (c : ascii) : bool := between 48 57 c.

(** [str.isdigit]: the decimal digits and the superscripts 1, 2, 3. *)
Definition isdigit (c : ascii) : bool :=
  between 48 57 c || is_code 178 c || is_code 179 c || is_code 185 c.

(** Line boundaries of [str.splitlines] (CR LF is treated apart). *)
Definition is_linebreak (c : ascii) : bool :=
  between 10 13 c || between 28 30 c || is_code 133 c.

(** [str.lower] on one character: A..Z and the Latin-1 capitals
    (U+00C0..U+00DE without the multiplication sign). *)
Definition lower_char (c : ascii) : ascii :=
  if between 65 90 c || (between 192 222 c && negb (is_code 215 c))
  then ascii_of_N (code c + 32) else c.

Definition LF : ascii := "010"%char.
Definition CR : ascii := "013"%char.
Definition DQUOTE : ascii := "034"%char.

(** One-character strings that cannot be written inside a literal. *)
Definition nl : string := String LF "".
Definition dq : string := String DQUOTE "".

(** ** String primitives *)

(** [c in chars] for a one-character [c]. *)
Fixpoint char_in (c : ascii) (chars : string) : bool :=
  match chars with
  | "" => false
  | String d chars' => Ascii.eqb c d || char_in c chars'
  end.

Fixpoint forallb_str (p : ascii -> bool) (s : string) : bool :=
  match s with
  | "" => true
  | String c s' => p c && forallb_str p s'
  end.

Fixpoint map_str (f : ascii -> ascii) (s : string) : string :=
  match s with
  | "" => ""
  | String c s' => String (f c) (map_str f s')
  end.

(** [s.lower()] *)
Definition lower (s : string) : string := map_str lower_char s.

(** Truth value of a [str]: non-empty. *)
Definition truthy (s : string) : bool :=
  match s with "" => false | _ => true end.

Fixpoint lstrip_by (p : ascii -> bool) (s : string) : string :=
  match s with
  | "" => ""
  | String c s' => if p c then lstrip_by p s' else s
  end.

Fixpoint rstrip_by (p : ascii -> bool) (s : string) : string :=
  match s with
  | "" => ""
  | String c s' =>
      match rstrip_by p s' with
      | "" => if p c then "" else String c ""
      | r => String c r
      end
  end.

Definition strip_by (p : ascii -> bool) (s : string) : string :=
  rstrip_by p (lstrip_by p s).

(** The last character of [s] is in the class [p]; not so when [s] is
    empty. *)
Fixpoint last_char_is (p : ascii -> bool) (s : string) : bool :=
  match s with
  | "" => false
  | String c "" => p c
  | String _ s' => last_char_is p s'
  end.

(** [s.strip()] *)
Definition strip (s : string) : string := strip_by isspace s.

(** [s.strip(chars)] *)
Definition strip_chars (chars s : string) : string :=
  strip_by (fun c => char_in c chars) s.

(** [sep.join(parts)] *)
Fixpoint join (sep : string) (parts : list string) : string :=
  match parts with
  | [] => ""
  | [p] => p
  | p :: rest => p ++ sep ++ join sep rest
  end.

(** [s.split()]: the maximal runs of non-whitespace characters.  [cur] is
    the run being read. *)
Fixpoint split_ws_from (cur s : string) : list string :=
  match s with
  | "" => if truthy cur then [cur] else []
  | String c s' =>
      if isspace c
      then (if truthy cur then [cur] else []) ++ split_ws_from "" s'
      else split_ws_from (cur ++ String c "") s'
  end.

Definition split_ws (s : string) : list string := split_ws_from "" s.

(** [s.splitlines()]: [cur] is the line being read; CR LF is one boundary;
    a final boundary opens no further line. *)
Fixpoint splitlines_from (cur s : string) : list string :=
  match s with
  | "" => if truthy cur then [cur] else []
  | String c s' =>
      if is_linebreak c then
        match s' with
        | String d s'' =>
            if Ascii.eqb c CR && Ascii.eqb d LF
            then cur :: splitlines_from "" s''
            else cur :: splitlines_from "" s'
        | "" => [cur]
        end
      else splitlines_from (cur ++ String c "") s'
  end.

Definition splitlines (s : string) : list string := splitlines_from "" s.

(** [s[:n]] for an [int] bound, which counts from the end when negative. *)
Fixpoint take (n : nat) (s : string) : string :=
  match n, s with
  | S n', String c s' => String c (take n' s')
  | _, _ => ""
  end.

Definition slice_to (n : Z) (s : string) : string :=
  if (0 <=? n)%Z then take (Z.to_nat n) s
  else take (Z.to_nat (Z.of_nat (String.length s) + n)) s.

(** [s.startswith(prefix)] *)
Definition startswith (pre s : string) : bool := String.prefix pre s.

(** [f"{n}"] for an [int]. *)
Definition str_of_int (n : Z) : string :=
  NilZero.string_of_int (Z.to_int n).

(** [x in xs] for a list of [str]. *)
Definition str_in (x : string) (xs : list string) : bool :=
  existsb (String.eqb x) xs.

(** Truth value of a [float]: anything but zero. *)
Definition float_truthy (x : float) : bool := negb (PrimFloat.eqb x 0%float).

End Py.

(* ===================================================================== *)
(** * The fragment of [re] used by the parser                             *)
(* ===================================================================== *)

Module Re.

(** A pattern is a sequence of atoms; the quantifiers are greedy and range
    over character classes, which is all the two patterns of
    [parse_questions_from_response] need. *)
Inductive atom : Type :=
| Bol                                   (* start of line          *)
| Lit (c : ascii)                       (* one given character    *)
| Star (p : ascii -> bool)              (* zero or more of a class *)
| Plus (p : ascii -> bool)              (* one or more of a class  *)
| GroupStar (p : ascii -> bool).        (* group 1: a starred class *)

Record pattern : Type := Pattern {
  multiline : bool;                     (* re.MULTILINE *)
  atoms : list atom
}.

(** The result of a match: group 1, the last character consumed before the
    end of the match (if the subject has one there), and the text after
    the match. *)
Definition found : Type := (string * option ascii * string)%type.

(** [^]: at the start of the subject, and with [re.MULTILINE] also right
    after a line feed. *)
Definition at_bol (ml : bool) (prev : option ascii) : bool :=
  match prev with
  | None => true
  | Some c => ml && Ascii.eqb c Py.LF
  end.

(** Greedy repetition with backtracking: take one more character when the
    class allows and the rest of the pattern then matches; otherwise stop
    here.  The continuation receives the text consumed. *)
Fixpoint greedy {R : Type} (p : ascii -> bool)
    (k : string -> option ascii -> string -> option R)
    (prev : option ascii) (s : string) : option R :=
  match s with
  | String c s' =>
      if p c then
        match greedy p (fun m => k (String c m)) (Some c) s' with
        | Some r => Some r
        | None => k "" prev s
        end
      else k "" prev s
  | "" => k "" prev ""
  end.

(** The backtracking matcher, anchored at the current position. *)
Fixpoint exec (ml : bool) (atoms : list atom) (g1 : string)
    (prev : option ascii) (s : string) : option found :=
  match atoms with
  | [] => Some (g1, prev, s)
  | Bol :: k => if at_bol ml prev then exec ml k g1 prev s else None
  | Lit c :: k =>
      match s with
      | String d s' => if Ascii.eqb c d then exec ml k g1 (Some d) s' else None
      | "" => None
      end
  | Star p :: k => greedy p (fun _ pv r => exec ml k g1 pv r) prev s
  | Plus p :: k =>
      match s with
      | String d s' =>
          if p d then greedy p (fun _ pv r => exec ml k g1 pv r) (Some d) s'
          else None
      | "" => None
      end
  | GroupStar p :: k => greedy p (fun m pv r => exec ml k m pv r) prev s
  end.

Definition match_at (pat : pattern) (prev : option ascii) (s : string)
  : option found :=
  exec (multiline pat) (atoms pat) "" prev s.

(** [pattern.findall(s)] for a pattern with one group: scan left to right,
    try the pattern at each position, continue after a match.  After an
    empty match the scan moves on by one character; the patterns of the
    parser match no empty text, so that branch is never taken for them. *)
Fixpoint findall_from (fuel : nat) (pat : pattern) (prev : option ascii)
    (s : string) : list string :=
  match fuel with
  | O => []
  | S fuel' =>
      let step :=
        match s with
        | "" => []
        | String c s' => findall_from fuel' pat (Some c) s'
        end in
      match match_at pat prev s with
      | Some (g, pv, r) =>
          if Nat.ltb (String.length r) (String.length s)
          then g :: findall_from fuel' pat pv r
          else g :: step
      | None => step
      end
  end.

Definition findall (pat : pattern) (s : string) : list string :=
  findall_from (S (String.length s)) pat None s.

(** [re.sub(pattern, '', s)]: the same scan, keeping what is not matched. *)
Fixpoint sub_empty_from (fuel : nat) (pat : pattern) (prev : option ascii)
    (s : string) : string :=
  match fuel with
  | O => s
  | S fuel' =>
      let step :=
        match s with
        | "" => ""
        | String c s' => String c (sub_empty_from fuel' pat (Some c) s')
        end in
      match match_at pat prev s with
      | Some (_, pv, r) =>
          if Nat.ltb (String.length r) (String.length s)
          then sub_empty_from fuel' pat pv r
          else step
      | None => step
      end
  end.

Definition sub_empty (pat : pattern) (s : string) : string :=
  sub_empty_from (S (String.length s)) pat None s.

End Re.

(* ===================================================================== *)
(** * generator/questions.py: the Response Parser                         *)
(* ===================================================================== *)

Module Parser.
Import Py Re.

(** The class [.] without [re.DOTALL]: anything but a line feed. *)
Definition not_newline (c : ascii) : bool := negb (Ascii.eqb c LF).

(** The compiled pattern  ^ \s* \d+ \. \s* ( .* )  with [re.MULTILINE]
    (written here with blanks between its atoms). *)
Definition question_pattern : pattern :=
  Pattern true
    [Bol; Star isspace; Plus isdecimal; Lit "."; Star isspace;
     GroupStar not_newline].

(** The class [[\d\.\-\*]]. *)
Definition marker_class (c : ascii) : bool :=
  isdecimal c || char_in c ".-*".

(** The pattern  ^ \s* [\d\.\-\*]+ \s*  of [re.sub], used without flags. *)
Definition marker_pattern : pattern :=
  Pattern false [Bol; Star isspace; Plus marker_class; Star isspace].

(** Truth value of a list: non-empty. *)
Definition nonempty {A : Type} (l : list A) : bool :=
  match l with [] => false | _ => true end.

(** [line[0]] satisfies [p]; every use is guarded by [line and ...]. *)
Definition first_char_is (p : ascii -> bool) (line : string) : bool :=
  match line with
  | String c _ => p c
  | "" => false
  end.

(** The body of [for match in matches]: one iteration on [questions]. *)
Definition keep_match (questions : list string) (m : string) : list string :=
  let question := strip m in
  if truthy question
  then questions ++ [strip_chars " *" question]
  else questions.

(** The primary strategy: [findall], then the loop over the matches. *)
Definition primary_questions (response_text : string) : list string :=
  let matches := findall question_pattern response_text in
  fold_left keep_match matches [].

(** The body of [for line in lines]: one iteration on
    [potential_questions]. *)
Definition keep_line (potential_questions : list string) (line0 : string)
  : list string :=
  let line := strip line0 in
  if truthy line && Nat.ltb 2 (String.length line)
     && (first_char_is isdigit line || first_char_is (fun c => char_in c "-*") line)
  then
    let cleaned_line := sub_empty marker_pattern line in
    if truthy cleaned_line && char_in "?" cleaned_line
    then potential_questions ++ [cleaned_line]
    else potential_questions
  else if truthy line && char_in "?" line
          && Nat.ltb 3 (List.length (split_ws line))
  then potential_questions ++ [line]
  else potential_questions.

(** The fallback strategy: the loop over [response_text.splitlines()]. *)
Definition fallback_questions (response_text : string) : list string :=
  fold_left keep_line (splitlines response_text) [].

Definition parse_questions_from_response (response_text : string)
  : list string :=
  if negb (truthy response_text) || negb (truthy (strip response_text))
  then []
  else
    let questions := primary_questions response_text in
    if negb (nonempty questions) && truthy response_text then
      let potential_questions := fallback_questions response_text in
      if nonempty potential_questions then potential_questions
      else questions
    else questions.

End Parser.

(* ===================================================================== *)
(** * The values a template function returns                              *)
(* ===================================================================== *)

Module Dataset.

(** A [dict] from [str] to [str], with its keys in insertion order. *)
Definition record : Type := list (string * string).

(** What [create_template] can return: a list of records, a dictionary of
    lists of records, a [str], or [None]. *)
Inductive template_value : Type :=
| VList (l : list record)
| VDict (d : list (string * list record))
| VStr (s : string)
| VNone.

(** Truth value: a non-empty list, dictionary or string. *)
Definition value_truthy (v : template_value) : bool :=
  match v with
  | VList l => match l with [] => false | _ => true end
  | VDict d => match d with [] => false | _ => true end
  | VStr s => Py.truthy s
  | VNone => false
  end.

(** [isinstance(v, str)] *)
Definition is_str (v : template_value) : bool :=
  match v with
  | VStr _ => true
  | _ => false
  end.

End Dataset.

(* ===================================================================== *)
(** * Effects: the world, exceptions and the collaborators                *)
(* ===================================================================== *)

Module Effects.

(** The exceptions the pipeline can meet.  [KeyboardInterrupt] is the only
    one that is not an [Exception]. *)
Inductive exception : Type :=
| ResponseError (status_code : Z) (error : string)   (* ollama.ResponseError *)
| IndexError
| OtherException
| KeyboardInterrupt.

(** [isinstance(e, Exception)] *)
Definition is_Exception (e : exception) : bool :=
  match e with
  | KeyboardInterrupt => false
  | _ => true
  end.

Inductive outcome (A : Type) : Type :=
| Return (a : A)
| Raise (e : exception).
Arguments Return {A} a.
Arguments Raise {A} e.

(** A computation: runs in a world, returns or raises, leaves a world. *)
Definition M (World A : Type) : Type := World -> outcome A * World.

Section Monad.
Context {World : Type}.

Definition ret {A : Type} (a : A) : M World A := fun w => (Return a, w).

Definition raise {A : Type} (e : exception) : M World A :=
  fun w => (Raise e, w).

Definition bind {A B : Type} (c : M World A) (k : A -> M World B)
  : M World B :=
  fun w =>
    match c w with
    | (Return a, w') => k a w'
    | (Raise e, w') => (Raise e, w')
    end.

(** [try: body  except Exception as e: handler(e)] *)
Definition try_except {A : Type} (body : M World A)
    (handler : exception -> M World A) : M World A :=
  fun w =>
    match body w with
    | (Return a, w') => (Return a, w')
    | (Raise e, w') =>
        if is_Exception e then handler e w' else (Raise e, w')
    end.

(** [for x in xs: state = body(state, x)] *)
Fixpoint for_each {A S : Type} (xs : list A) (body : S -> A -> M World S)
    (s : S) : M World S :=
  match xs with
  | [] => ret s
  | x :: xs' => bind (body s x) (for_each xs' body)
  end.

(** [l[i]] *)
Definition index {A : Type} (l : list A) (i : nat) : M World A :=
  match nth_error l i with
  | Some x => ret x
  | None => raise IndexError
  end.

End Monad.

Declare Scope py_scope.
Delimit Scope py_scope with py.
Notation "x <- c ;; k" := (bind c (fun x => k))
  (at level 61, c at next level, right associativity) : py_scope.

(** One chat message, [{"role": ..., "content": ...}]. *)
Record message : Type := Message { role : string; content : string }.

(** The collaborators of the pipeline.
    - [ollama_list]: [ollama.list()], reduced to the names of the models it
      lists.
    - [ollama_chat]: [ollama.chat(model, messages, options)], reduced to
      [response['message']['content']].
    - [get_document_content]: the document source of [generator/utils.py]
      ([os.path], [open], PyMuPDF), which reports every failure as [None].
    - [write_dataset]: what [save_dataset] does once it has accepted its
      input: directory, JSON file and, for the default template, CSV file. *)
Class Env (World : Type) : Type := {
  ollama_list : M World (list string);
  ollama_chat : string -> list message -> float -> M World string;
  get_document_content : string -> list string -> M World (option string);
  write_dataset : Dataset.template_value -> string -> string -> M World unit
}.

End Effects.

(* ===================================================================== *)
(** * generator/answers.py: the Answer Generator                          *)
(* ===================================================================== *)

Module Answers.
Import Py Effects.
Local Open Scope py_scope.

(** The sentence the prompt asks the model to reply when the document has
    no answer. *)
Definition abstention_sentinel : string :=
  "The document does not provide an answer to this question.".

(** The f-string [prompt] of [answer_question_ollama]. *)
Definition answer_prompt (context question : string) : string :=
  join nl
    [ "";
      "        You are an expert assistant specialized in answering questions based *strictly* on the provided text document.";
      "        Use *only* the information available in the document below to answer the question.";
      "        Do not use any prior knowledge or information from outside the document.";
      "        If the answer cannot be found within the document text, you MUST respond with the exact phrase:";
      "        " ++ dq ++ "The document does not provide an answer to this question." ++ dq;
      "        Do not add any explanation or apology if the answer is not found.";
      "        Provide a concise and direct answer based on the text. Avoid introductory phrases like "
        ++ dq ++ "According to the document..." ++ dq ++ " unless essential for clarity.";
      "";
      "        --- START OF DOCUMENT ---";
      "        " ++ context;
      "        --- END OF DOCUMENT ---";
      "";
      "        Based *only* on the document above, answer the following question:";
      "        Question: " ++ question;
      "";
      "        Answer:";
      "    " ].

(** The string put in place of an answer that could not be generated. *)
Definition answer_fallback : string :=
  "Error occurred while generating this answer.".

Section WithEnv.
Context {World : Type} {E : Env World}.

Definition answer_question_ollama (question context model : string)
    (temperature : float) : M World (option string) :=
  if negb (truthy context) then ret None
  else if negb (truthy question) then ret None
  else
    let prompt := answer_prompt context question in
    let messages := [Message "user" prompt] in
    try_except
      (response <- ollama_chat model messages temperature ;;
       let answer := strip response in
       ret (Some answer))
      (fun e =>
         match e with
         | ResponseError _ _ => ret None
         | _ => ret None
         end).

(** The body of the loop of [answers_questions_ollama]. *)
Definition answer_and_append (document_content model : string)
    (temperature : float) (answers_questions : list string)
    (question : string) : M World (list string) :=
  answer <- answer_question_ollama question document_content model
              temperature ;;
  let answer :=
    match answer with
    | None => answer_fallback
    | Some a => a
    end in
  ret (answers_questions ++ [answer])%list.

Definition answers_questions_ollama (document_content : string)
    (generated_questions : list string) (model : string)
    (temperature : float) : M World (list string) :=
  for_each generated_questions
    (answer_and_append document_content model temperature) [].

End WithEnv.

End Answers.

(* ===================================================================== *)
(** * generator/questions.py: the Question Generator                      *)
(* ===================================================================== *)

Module Questions.
Import Py Effects Parser.
Local Open Scope py_scope.

(** The f-string [prompt] of [generate_questions_ollama]. *)
Definition generation_prompt (num_questions : Z) (truncated_content : string)
  : string :=
  join nl
    [ "";
      "        Based *only* on the following document content, please generate exactly "
        ++ str_of_int num_questions ++ " relevant and";
      "        insightful questions that test understanding of the main topics, key details, or potential implications discussed.";
      "        Do not ask questions that cannot be answered from the provided text.";
      "        Format the output *strictly* as a numbered list, with each question on a new line (e.g., "
        ++ dq ++ "1. Question one?" ++ dq ++ ").";
      "        Do not include any introductory text like " ++ dq
        ++ "Here are the questions:" ++ dq ++ " or any concluding remarks.";
      "";
      "        Document Content:";
      "        --- START OF DOCUMENT ---";
      "        " ++ truncated_content;
      "        --- END OF DOCUMENT ---";
      "";
      "        Generate " ++ str_of_int num_questions ++ " questions now:";
      "    " ].

Section WithEnv.
Context {World : Type} {E : Env World}.

Definition generate_questions_ollama (content : string) (num_questions : Z)
    (model : string) (temperature : float) (max_gen_prompt_content_len : Z)
  : M World (option (list string)) :=
  if negb (truthy content) then ret None
  else
    let truncated_content := slice_to max_gen_prompt_content_len content in
    let prompt := generation_prompt num_questions truncated_content in
    let messages := [Message "user" prompt] in
    try_except
      (raw_response_text <- ollama_chat model messages temperature ;;
       let questions := parse_questions_from_response raw_response_text in
       if negb (nonempty questions) then ret (Some [])
       else ret (Some questions))
      (fun e =>
         match e with
         | ResponseError _ _ => ret None
         | _ => ret None
         end).

End WithEnv.

End Questions.

(* ===================================================================== *)
(** * generator/utils.py: model check and Dataset Formatter               *)
(* ===================================================================== *)

Module Utils.
Import Py Effects Dataset.
Local Open Scope py_scope.

Section WithEnv.
Context {World : Type} {E : Env World}.

Definition check_ollama_connection : M World bool :=
  try_except
    (_ <- ollama_list ;; ret true)
    (fun _ => ret false).

(** Returns [True] or [None]. *)
Definition check_ollama (model_gen model_ret default_gen_model
    default_ret_model : string) : M World (option bool) :=
  connected <- check_ollama_connection ;;
  if negb connected then ret None
  else
    try_except
      (model_names <- ollama_list ;;
       if negb (str_in model_gen model_names) then ret None
       else if negb (str_in model_ret model_names) then ret None
       else if negb (str_in default_gen_model model_names) then ret None
       else if negb (str_in default_ret_model model_names) then ret None
       else ret (Some true))
      (fun _ => ret None).

Definition create_default_template (generated_questions
    answers_questions : list string) : M World (list record) :=
  if negb (Nat.eqb (List.length generated_questions) (List.length answers_questions))
  then ret []
  else
    for_each (seq 0 (List.length generated_questions))
      (fun basic_temp i =>
         q <- index generated_questions i ;;
         a <- index answers_questions i ;;
         ret (basic_temp ++ [[("input", q); ("output", a)]])%list)
      [].

Definition create_gemma_template (generated_questions
    answers_questions : list string) : M World (list record) :=
  if negb (Nat.eqb (List.length generated_questions) (List.length answers_questions))
  then ret []
  else
    for_each (seq 0 (List.length generated_questions))
      (fun gemma_temp i =>
         q <- index generated_questions i ;;
         let gemma_temp :=
           (gemma_temp ++ [[("content", q); ("role", "user")]])%list in
         a <- index answers_questions i ;;
         ret (gemma_temp ++ [[("content", a); ("role", "assistant")]])%list)
      [].

Definition create_llama_template (generated_questions
    answers_questions : list string)
  : M World (list (string * list record)) :=
  if negb (Nat.eqb (List.length generated_questions) (List.length answers_questions))
  then ret [("conversations", [])]
  else
    conversations <-
      for_each (seq 0 (List.length generated_questions))
        (fun conversations i =>
           q <- index generated_questions i ;;
           let conversations :=
             (conversations ++ [[("from", "human"); ("value", q)]])%list in
           a <- index answers_questions i ;;
           ret (conversations ++ [[("from", "gpt"); ("value", a)]])%list)
        [] ;;
    let llama_temp := [("conversations", conversations)] in
    ret llama_temp.

(** The message returned for a template that is not supported. *)
Definition unsupported_template_error (template : string)
    (supported_templates : list string) : string :=
  "Error: Unsupported template '" ++ template ++ "'. Choose from: "
    ++ join ", " supported_templates.

Definition create_template (template : string) (generated_questions
    answers_questions : list string) (supported_templates : list string)
  : M World template_value :=
  if negb (str_in (lower template) supported_templates)
  then ret (VStr (unsupported_template_error template supported_templates))
  else if (lower template =? "default")%string then
    l <- create_default_template generated_questions answers_questions ;;
    ret (VList l)
  else if (lower template =? "gemma")%string then
    l <- create_gemma_template generated_questions answers_questions ;;
    ret (VList l)
  else if (lower template =? "llama")%string then
    d <- create_llama_template generated_questions answers_questions ;;
    ret (VDict d)
  else ret VNone.

Definition save_dataset (file : template_value) (template output_dir
    : string) : M World unit :=
  match file with
  | VStr s =>
      if startswith "Error:" s then ret tt
      else write_dataset file template output_dir
  | _ => write_dataset file template output_dir
  end.

End WithEnv.

End Utils.

(* ===================================================================== *)
(** * main.py: the Orchestrator                                           *)
(* ===================================================================== *)

Module Main.
Import Py Effects Dataset Parser.
Import Answers Questions Utils.
Local Open Scope py_scope.

(** The values read from [config.yaml]. *)
Record config : Type := Config {
  DEFAULT_NUM_QUESTIONS : Z;
  DEFAULT_TEMPLATE : string;
  SUPPORTED_TEMPLATES : list string;
  SUPPORTED_FILE_TYPES : list string;
  DEFAULT_GEN_OLLAMA_MODEL : string;
  DEFAULT_RET_OLLAMA_MODEL : string;
  DEFAULT_GEN_TEMPERATURE : float;
  DEFAULT_RET_TEMPERATURE : float;
  DEFAULT_OUTPUT_DIR : string;
  MAX_GEN_PROMPT_CONTENT_LEN : Z
}.

(** The namespace [parse_arguments] returns. *)
Record arguments : Type := Namespace {
  file : string;
  questions : Z;
  template : string;
  model_gen : string;
  model_ret : string;
  gen_temp : float;
  ret_temp : float;
  output_dir : string
}.

(** [x or y] on [int], [str] and [float]. *)
Definition int_or (x y : Z) : Z := if (x =? 0)%Z then y else x.
Definition str_or (x y : string) : string := if truthy x then x else y.
Definition float_or (x y : float) : float := if float_truthy x then x else y.

Section WithEnv.
Context {World : Type} {E : Env World}.

(** [main()], after the arguments are parsed and logging is set up.  It
    returns an [int] or [None]. *)
Definition main (cfg : config) (args : arguments) : M World (option Z) :=
  document_content <-
    get_document_content (file args) (SUPPORTED_FILE_TYPES cfg) ;;
  match document_content with
  | None => ret (Some 1%Z)
  | Some document_content =>
  if negb (truthy (strip document_content)) then ret (Some 1%Z)
  else
  available <-
    check_ollama (model_gen args) (model_ret args)
      (DEFAULT_GEN_OLLAMA_MODEL cfg) (DEFAULT_RET_OLLAMA_MODEL cfg) ;;
  match available with
  | None | Some false => ret None
  | Some true =>
  generated_questions <-
    generate_questions_ollama document_content
      (int_or (questions args) (DEFAULT_NUM_QUESTIONS cfg))
      (str_or (model_gen args) (DEFAULT_GEN_OLLAMA_MODEL cfg))
      (float_or (gen_temp args) (DEFAULT_GEN_TEMPERATURE cfg))
      (MAX_GEN_PROMPT_CONTENT_LEN cfg) ;;
  match generated_questions with
  | None => ret (Some 1%Z)
  | Some generated_questions =>
  if negb (nonempty generated_questions) then ret (Some 1%Z)
  else
  answers_questions <-
    answers_questions_ollama document_content generated_questions
      (str_or (model_ret args) (DEFAULT_RET_OLLAMA_MODEL cfg))
      (float_or (ret_temp args) (DEFAULT_RET_TEMPERATURE cfg)) ;;
  (* [answers_questions is None] cannot be: the batch returns a list *)
  if negb (nonempty answers_questions) then ret (Some 1%Z)
  else
  data <-
    create_template (template args) generated_questions answers_questions
      (SUPPORTED_TEMPLATES cfg) ;;
  if value_truthy data && negb (is_str data) then
    _ <- save_dataset data (str_or (template args) (DEFAULT_TEMPLATE cfg))
           (str_or (output_dir args) (DEFAULT_OUTPUT_DIR cfg)) ;;
    ret (Some 0%Z)
  else ret (Some 1%Z)
  end end end.

(** [sys.exit(status)]: [None] is exit status 0, an [int] is itself. *)
Definition sys_exit (status : option Z) : Z :=
  match status with
  | None => 0%Z
  | Some n => n
  end.

(** The [if __name__ == "__main__"] block: the exit status of the
    process, for a run whose command line [parse_arguments] has accepted.
    The [SystemExit] that [argparse] raises on a rejected command line
    (status 2) passes both handlers of the block and is outside this
    model, as [main] is. *)
Definition script (cfg : config) (args : arguments) (w : World)
  : Z * World :=
  match main cfg args w with
  | (Return status, w') => (sys_exit status, w')
  | (Raise KeyboardInterrupt, w') => (130%Z, w')
  | (Raise _, w') => (1%Z, w')
  end.

End WithEnv.

End Main.

(* ===================================================================== *)
(** * A scripted world, to run the pipeline on concrete inputs            *)
(* ===================================================================== *)

Module Scripted.
Import Py Effects Dataset.

(** The document the source yields, the outcomes [ollama.list()] and
    [ollama.chat()] will have, call after call, and what has been written. *)
Record world : Type := World {
  document : option string;
  listings : list (outcome (list string));
  replies : list (outcome string);
  written : list template_value
}.

(** A call beyond the script finds the serving process gone. *)
Definition scripted_list : M world (list string) :=
  fun w =>
    match listings w with
    | [] => (Raise OtherException, w)
    | r :: rest => (r, World (document w) rest (replies w) (written w))
    end.

Definition scripted_chat (_ : string) (_ : list message) (_ : float)
  : M world string :=
  fun w =>
    match replies w with
    | [] => (Raise OtherException, w)
    | r :: rest => (r, World (document w) (listings w) rest (written w))
    end.

Definition scripted_document (_ : string) (_ : list string)
  : M world (option string) :=
  fun w => (Return (document w), w).

Definition scripted_write (data : template_value) (_ _ : string)
  : M world unit :=
  fun w =>
    (Return tt,
     World (document w) (listings w) (replies w) (written w ++ [data])%list).

#[export] Instance scripted_env : Env world := {
  ollama_list := scripted_list;
  ollama_chat := scripted_chat;
  get_document_content := scripted_document;
  write_dataset := scripted_write
}.

(** A configuration and a command line to run [main] with. *)
Definition cfg0 : Main.config :=
  Main.Config 5 "default" ["default"; "gemma"; "llama"] [".txt"; ".pdf"]
    "llama3" "llama3" 0.5%float 0.25%float "output" 4000.

Definition args0 : Main.arguments :=
  Main.Namespace "doc.txt" 2 "default" "llama3" "llama3" 0.5%float
    0.25%float "output".

(** A readable document, and no serving process. *)
Definition world_unreachable : world :=
  World (Some "Some text.") [] [] [].

(** The same world once every scripted outcome is used up. *)
Definition world_spent : world :=
  World (Some "Some text.") [] [] [].

(** A readable document, and a serving process without the model asked
    for. *)
Definition world_model_missing : world :=
  World (Some "Some text.") [Return ["mistral"]; Return ["mistral"]] [] [].

(** The model replies with prose that holds no question. *)
Definition world_prose_reply : world :=
  World (Some "Some text.") [Return ["llama3"]; Return ["llama3"]]
    [Return "I cannot help with that."] [].

(** The model reports an error. *)
Definition world_model_error : world :=
  World (Some "Some text.") [Return ["llama3"]; Return ["llama3"]]
    [Raise (ResponseError 500 "internal error")] [].

(** Three questions; the model answers the first and the third and
    reports an error on the second. *)
Definition world_three_replies : world :=
  World (Some "Some text.") []
    [Return " A1 "; Raise (ResponseError 500 "internal error"); Return "A3"]
    [].

(** The model abstains, with blanks and a line feed around the sentence. *)
Definition world_abstention : world :=
  World (Some "Some text.") []
    [Return ("  " ++ Answers.abstention_sentinel ++ " " ++ nl)] [].

End Scripted.

(* ===================================================================== *)
(** * Notions the properties are stated with                              *)
(* ===================================================================== *)

Module ParserSpec.
Import Py Re Parser.

(** The longest prefix of [s] inside the class [p]. *)
Fixpoint take_while (p : ascii -> bool) (s : string) : string :=
  match s with
  | String c s' => if p c then String c (take_while p s') else ""
  | "" => ""
  end.

(** The last character read once [m] is consumed after [prev]. *)
Fixpoint last_of (prev : option ascii) (m : string) : option ascii :=
  match m with
  | "" => prev
  | String c m' => last_of (Some c) m'
  end.

(** [question_pattern] read from left to right without backtracking: blanks,
    digits, a period, blanks, the rest of the line. *)
Definition numbered_item (s : string) : option found :=
  match lstrip_by isspace s with
  | String d s2 =>
      if isdecimal d then
        match lstrip_by isdecimal s2 with
        | String c s4 =>
            if Ascii.eqb "." c then
              let gap := take_while isspace s4 in
              let s5 := lstrip_by isspace s4 in
              let g := take_while not_newline s5 in
              Some (g, last_of (last_of (Some c) gap) g,
                    lstrip_by not_newline s5)
            else None
        | "" => None
        end
      else None
  | "" => None
  end.

(** The scan of the primary strategy from a position of the text, with
    the fuel [findall] gives it. *)
Definition scan (prev : option ascii) (s : string) : list string :=
  findall_from (S (String.length s)) question_pattern prev s.


(** ** Numbered-list text *)












(** A blank or an asterisk, the characters of [strip(' *')]. *)
Definition is_emphasis (c : ascii) : bool := char_in c " *".

(** The string neither starts nor ends with a blank or an asterisk. *)
Definition bare (q : string) : Prop :=
  first_char_is is_emphasis q = false /\ last_char_is is_emphasis q = false.

(** ** The per-line heuristic, in the words of the specification *)

(** The line without its leading marker characters. *)
Definition strip_marker (line : string) : string :=
  lstrip_by isspace (lstrip_by marker_class line).

Definition is_bullet (c : ascii) : bool := char_in c "-*".

(** (a) a line longer than 2 characters that starts with a digit or a
    bullet is kept, without its marker, if the remainder has a question
    mark; (b) a line with a question mark and more than 3 tokens is kept
    as it is. *)
Definition heuristic_accept (line : string) : list string :=
  if Nat.ltb 2 (String.length line)
     && (first_char_is isdigit line || first_char_is is_bullet line)
     && char_in "?" (strip_marker line)
  then [strip_marker line]
  else if char_in "?" line && Nat.ltb 3 (List.length (split_ws line))
  then [line]
  else [].

(** The accepted lines of a text, in order. *)
Definition heuristic_scan (text : string) : list string :=
  flat_map (fun line => heuristic_accept (strip line)) (splitlines text).

End ParserSpec.

Module AnswersSpec.
Import Py Effects Answers.

Section WithEnv.
Context {World : Type} {E : Env World}.
Variables (document_content model : string) (temperature : float).

(** [single_calls qs w rs w']: from the world [w], calling
    [answer_question_ollama] on the questions [qs] one after the other
    returns the results [rs] and leaves the world [w']. *)
Inductive single_calls
  : list string -> World -> list (option string) -> World -> Prop :=
| calls_done : forall w, single_calls [] w [] w
| calls_next : forall q qs w r w1 rs w2,
    answer_question_ollama q document_content model temperature w
      = (Return r, w1) ->
    single_calls qs w1 rs w2 ->
    single_calls (q :: qs) w (r :: rs) w2.

(** What the batch holds for one result. *)
Definition batch_entry (r : option string) : string :=
  match r with
  | Some answer => answer
  | None => "Error occurred while generating this answer."
  end.

End WithEnv.

End AnswersSpec.

(* ===================================================================== *)
(** * generator/utils.py: the document source                             *)
(* ===================================================================== *)

Module Documents.
Import Py Effects.
Local Open Scope py_scope.

(** The class of what [fitz.open] or a page raises, by the first of the
    three named clauses of [read_pdf_file] that catches it: the builtin
    [FileNotFoundError], [fitz.FileDataError], [fitz.EmptyFileError], or
    none of the three. *)
Inductive pdf_failure : Type :=
| IsFileNotFoundError
| IsFileDataError
| IsEmptyFileError
| IsNoneOfThese.

Definition caught_by_name (f : pdf_failure) : bool :=
  match f with
  | IsNoneOfThese => false
  | _ => true
  end.

(** The file system and the PDF library.
    - [os_path_exists]: [os.path.exists], which reads the world and raises
      nothing.
    - [os_path_splitext]: [os.path.splitext], a function of the platform.
    - [open_text]: [open(filepath, 'r', encoding='utf-8')] and [f.read()].
    - [open_pdf]: [fitz.open(filepath)] and, for every page in order,
      [page.get_text("text")].
    - [pdf_failure_class]: when [open_pdf] raises an [Exception] in this
      world, the class of that exception.
    - [fitz_has_FitzError]: whether the installed PyMuPDF defines
      [fitz.FitzError], the name the fourth clause of [read_pdf_file]
      looks up. *)
Class Files (World : Type) : Type := {
  os_path_exists : string -> World -> bool;
  os_path_splitext : string -> string * string;
  open_text : string -> M World string;
  open_pdf : string -> M World (list string);
  pdf_failure_class : string -> World -> pdf_failure;
  fitz_has_FitzError : bool
}.

(** The loop over the pages: a page with text adds its text and a line
    feed. *)
Definition add_page (text page_text : string) : string :=
  if truthy page_text then text ++ page_text ++ nl else text.

Definition pages_text (pages : list string) : string :=
  fold_left add_page pages "".

(** The cleanup: the lines that are not blank, stripped, joined by line
    feeds. *)
Definition kept_lines (text : string) : list string :=
  map strip (filter (fun line => truthy (strip line)) (splitlines text)).

Definition cleanup (text : string) : string := join nl (kept_lines text).

Section WithFiles.
Context {World : Type} {F : Files World}.

Definition read_text_file (filepath : string) : M World (option string) :=
  try_except
    (content <- open_text filepath ;;
     ret (Some content))
    (fun _ => ret None).

(** The five clauses of [read_pdf_file] are tried in order.  The first
    three catch by name and return [None].  Whatever passes them, an
    [Exception] or not, makes Python look up [fitz.FitzError]: where the
    library has no such name the lookup raises [AttributeError] (here
    [OtherException]), which leaves the function; where it has, that
    clause or [except Exception] returns [None] for an [Exception], and
    anything else goes on. *)
Definition read_pdf_file (filepath : string) : M World (option string) :=
  fun w =>
    match open_pdf filepath w with
    | (Return doc, w') =>
        if Nat.eqb (List.length doc) 0 then (Return (Some ""), w')
        else
          let text := pages_text doc in
          let text := cleanup text in
          (Return (Some text), w')
    | (Raise e, w') =>
        if is_Exception e && caught_by_name (pdf_failure_class filepath w)
        then (Return None, w')
        else if fitz_has_FitzError then
          (if is_Exception e then (Return None, w') else (Raise e, w'))
        else (Raise OtherException, w')
    end.

Definition get_document_content (filepath : string)
    (supported_file_types : list string) : M World (option string) :=
  fun w =>
    if negb (os_path_exists filepath w) then (Return None, w)
    else
      let file_ext := snd (os_path_splitext filepath) in
      let file_ext := lower file_ext in
      if (file_ext =? ".txt")%string then read_text_file filepath w
      else if (file_ext =? ".pdf")%string then read_pdf_file filepath w
      else (Return None, w).

End WithFiles.

End Documents.

(* ===================================================================== *)
(** * A disk, to run the document source on concrete files                *)
(* ===================================================================== *)

Module Disk.
Import Py Effects Documents.

(** What a path holds: text, the pages of a PDF, or bytes that neither
    reader accepts. *)
Inductive entry : Type :=
| TextFile (content : string)
| PdfFile (pages : list string)
| Unreadable.

Definition disk : Type := list (string * entry).

Fixpoint lookup (path : string) (d : disk) : option entry :=
  match d with
  | [] => None
  | (p, e) :: d' => if (p =? path)%string then Some e else lookup path d'
  end.

(** The part of a path after its last slash; [cur] is the part read since
    the last slash. *)
Fixpoint basename_from (cur path : string) : string :=
  match path with
  | "" => cur
  | String c path' =>
      if Ascii.eqb c "/" then basename_from "" path'
      else basename_from (cur ++ String c "") path'
  end.

(** From the last period of [name] on; empty when [name] has none. *)
Fixpoint last_ext (name : string) : string :=
  match name with
  | "" => ""
  | String c name' =>
      match last_ext name' with
      | "" => if Ascii.eqb c "." then name else ""
      | ext => ext
      end
  end.

(** [posixpath.splitext]: the extension starts at the last period of the
    last component of the path, the leading periods of that component set
    apart. *)
Definition disk_splitext (path : string) : string * string :=
  let ext :=
    last_ext (lstrip_by (Ascii.eqb ".") (basename_from "" path)) in
  (take (String.length path - String.length ext) path, ext).

Definition disk_exists (path : string) (d : disk) : bool :=
  match lookup path d with
  | Some _ => true
  | None => false
  end.

Definition disk_open_text (path : string) : M disk string :=
  fun d =>
    match lookup path d with
    | Some (TextFile content) => (Return content, d)
    | _ => (Raise OtherException, d)
    end.

Definition disk_open_pdf (path : string) : M disk (list string) :=
  fun d =>
    match lookup path d with
    | Some (PdfFile pages) => (Return pages, d)
    | _ => (Raise OtherException, d)
    end.

#[export] Instance disk_files : Files disk := {
  os_path_exists := disk_exists;
  os_path_splitext := disk_splitext;
  open_text := disk_open_text;
  open_pdf := disk_open_pdf;
  pdf_failure_class := fun _ _ => IsNoneOfThese;
  fitz_has_FitzError := false
}.

(** A text file, a PDF of three pages, the second one blank, and a PDF
    whose pages are all blank. *)
Definition disk0 : disk :=
  [("notes.TXT", TextFile "Some text.");
   ("paper.pdf",
    PdfFile [" Title " ++ nl ++ nl ++ "  first line  "; "   "; "last"]);
   ("scan.pdf", PdfFile ["  "; nl]);
   ("broken.pdf", Unreadable);
   ("image.png", Unreadable)].

End Disk.

(* ===================================================================== *)
(** * More scripted worlds                                                *)
(* ===================================================================== *)

Module Runs.
Import Py Effects Dataset Scripted.

(** The user interrupts the first call to the model. *)
Definition world_interrupted : world :=
  World (Some "Some text.") [Return ["llama3"]; Return ["llama3"]]
    [Raise KeyboardInterrupt] [].

(** The model lists two questions, answers the first one and reports an
    error on the second. *)
Definition world_full_run : world :=
  World (Some "Some text.") [Return ["llama3"]; Return ["llama3"]]
    [Return ("1. What is X?" ++ nl ++ "2. *Why Y?*");
     Return " X is a letter. ";
     Raise (ResponseError 500 "internal error")]
    [].

(** What [world_full_run] has become when [main] is over. *)
Definition world_full_run_done : world :=
  World (Some "Some text.") [] []
    [VList [[("input", "What is X?"); ("output", "X is a letter.")];
            [("input", "Why Y?");
             ("output", "Error occurred while generating this answer.")]]].

End Runs.

(* ===================================================================== *)
(** * Classes of characters the further properties speak of               *)
(* ===================================================================== *)

Module Classes.
Import Py.

(** Not a line boundary of [str.splitlines]. *)
Definition no_break (c : ascii) : bool := negb (is_linebreak c).

(** Not a decimal digit. *)
Definition no_decimal (c : ascii) : bool := negb (isdecimal c).

(** Not a question mark. *)
Definition no_question_mark (c : ascii) : bool := negb (Ascii.eqb "?" c).

(** The string neither starts nor ends with whitespace. *)
Definition trimmed (a : string) : Prop :=
  Parser.first_char_is isspace a = false /\ last_char_is isspace a = false.

End Classes.

(* ===================================================================== *)
(** * Facts about the Python primitives                                   *)
(* ===================================================================== *)

Module PyFacts.
Import Py.

(** Decide a fact about one character by running through the 256 of them. *)
Ltac each_char c :=
  destruct c as [[] [] [] [] [] [] [] []]; vm_compute;
  try reflexivity; try discriminate; auto.

Lemma isspace_not_isdecimal c : isspace c = true -> isdecimal c = false.
Proof. each_char c. Qed.

Lemma isdecimal_not_period c : isdecimal c = true -> Ascii.eqb "." c = false.
Proof. each_char c. Qed.

Lemma lower_char_idempotent c : lower_char (lower_char c) = lower_char c.
Proof. each_char c. Qed.

Lemma lower_idempotent s : lower (lower s) = lower s.
Proof.
  unfold lower. induction s as [|c s IH]; simpl.
  - reflexivity.
  - now rewrite lower_char_idempotent, IH.
Qed.

Lemma app_str_nil s : s ++ "" = s.
Proof. induction s as [|c s IH]; simpl; [reflexivity | now rewrite IH]. Qed.

Lemma app_str_assoc a b c : (a ++ b) ++ c = a ++ b ++ c.
Proof. induction a as [|x a IH]; simpl; [reflexivity | now rewrite IH]. Qed.

Lemma length_app_str a b :
  String.length (a ++ b) = String.length a + String.length b.
Proof. induction a as [|x a IH]; simpl; [reflexivity | now rewrite IH]. Qed.

Lemma forallb_str_app p a b :
  forallb_str p (a ++ b) = forallb_str p a && forallb_str p b.
Proof.
  induction a as [|x a IH]; simpl; [reflexivity|].
  now rewrite IH, andb_assoc.
Qed.

(** *** Stripping *)

Lemma lstrip_by_all p l s :
  forallb_str p l = true -> lstrip_by p (l ++ s) = lstrip_by p s.
Proof.
  induction l as [|c l IH]; simpl; [reflexivity|].
  intros H. apply andb_true_iff in H as [Hc Hl]. now rewrite Hc, IH.
Qed.

Lemma lstrip_by_stop p s :
  Parser.first_char_is p s = false -> lstrip_by p s = s.
Proof. destruct s as [|c s]; simpl; [reflexivity | now intros ->]. Qed.

Lemma lstrip_by_first p s : Parser.first_char_is p (lstrip_by p s) = false.
Proof.
  induction s as [|c s IH]; simpl; [reflexivity|].
  destruct (p c) eqn:Hc; [exact IH | simpl; exact Hc].
Qed.

Lemma rstrip_by_blank p r : forallb_str p r = true -> rstrip_by p r = "".
Proof.
  induction r as [|c r IH]; simpl; [reflexivity|].
  intros H. apply andb_true_iff in H as [Hc Hr]. now rewrite IH, Hc.
Qed.

Lemma rstrip_by_all p x r :
  forallb_str p r = true -> rstrip_by p (x ++ r) = rstrip_by p x.
Proof.
  intros Hr. induction x as [|c x IH]; simpl.
  - now apply rstrip_by_blank.
  - now rewrite IH.
Qed.

(** What [rstrip_by] removes is a suffix inside the class. *)
Lemma rstrip_by_split p s :
  exists r, s = rstrip_by p s ++ r /\ forallb_str p r = true.
Proof.
  induction s as [|c s (r & Hs & Hr)]; simpl.
  - now exists "".
  - destruct (rstrip_by p s) as [|d t] eqn:Ht.
    + simpl in Hs. subst r. destruct (p c) eqn:Hc.
      * exists (String c s). simpl. now rewrite Hc, Hr.
      * exists s. now split.
    + exists r. split; [|exact Hr]. simpl in *. now rewrite <- Hs.
Qed.

Lemma lstrip_by_split p s :
  exists l, s = l ++ lstrip_by p s /\ forallb_str p l = true.
Proof.
  induction s as [|c s (l & Hs & Hl)]; simpl.
  - now exists "".
  - destruct (p c) eqn:Hc.
    + exists (String c l). simpl. now rewrite <- Hs, Hc, Hl.
    + now exists "".
Qed.

Lemma rstrip_by_last p s : last_char_is p (rstrip_by p s) = false.
Proof.
  induction s as [|c s IH]; simpl; [reflexivity|].
  destruct (rstrip_by p s) as [|d t] eqn:Ht.
  - destruct (p c) eqn:Hc; simpl; [reflexivity | exact Hc].
  - exact IH.
Qed.

Lemma rstrip_by_keeps_first p s :
  Parser.first_char_is p s = false ->
  Parser.first_char_is p (rstrip_by p s) = false.
Proof.
  destruct s as [|c s]; simpl; [reflexivity|]. intros Hc.
  destruct (rstrip_by p s); [rewrite Hc|]; simpl; exact Hc.
Qed.

Lemma strip_by_blank p s : forallb_str p s = true -> strip_by p s = "".
Proof.
  intros H. unfold strip_by.
  rewrite <- (app_str_nil s), lstrip_by_all by exact H. reflexivity.
Qed.

Lemma strip_by_empty_inv p s : strip_by p s = "" -> forallb_str p s = true.
Proof.
  unfold strip_by. intros H.
  destruct (lstrip_by_split p s) as (l & Hs & Hl).
  destruct (rstrip_by_split p (lstrip_by p s)) as (r & Hr & Hpr).
  rewrite H in Hr. simpl in Hr. rewrite Hs, Hr, forallb_str_app, Hl, Hpr.
  reflexivity.
Qed.

End PyFacts.

(* ===================================================================== *)
(** * The Dataset Formatter                                               *)
(* ===================================================================== *)

Module Formatter.
Import Py Effects Dataset Utils PyFacts.

Section WithEnv.
Context {World : Type} {E : Env World}.

(** With as many answers as questions the default loop never indexes out
    of range: after [k] rounds on the remaining [qs] and [ans] the result
    is the records so far followed by one record per pair. *)
Lemma default_loop_pairs (qs ans done_q done_a : list string)
    (acc : list record) (w : World) :
  List.length done_q = List.length done_a ->
  List.length qs = List.length ans ->
  for_each (seq (List.length done_q) (List.length qs))
    (fun basic_temp i =>
       bind (index (done_q ++ qs) i) (fun q =>
       bind (index (done_a ++ ans) i) (fun a =>
       ret (basic_temp ++ [[("input", q); ("output", a)]])%list)))
    acc w
  = (Return (acc ++ map (fun qa => [("input", fst qa); ("output", snd qa)])
                        (combine qs ans))%list, w).
Proof.
  revert ans done_q done_a acc.
  induction qs as [|q qs IH]; intros [|a ans] done_q done_a acc Hd Hl;
    try discriminate; simpl.
  - now rewrite app_nil_r.
  - unfold bind at 1 2 3, index.
    rewrite nth_error_app2, Nat.sub_diag by lia. simpl.
    rewrite Hd, nth_error_app2, Nat.sub_diag by lia. simpl.
    unfold ret at 1.
    specialize (IH ans (done_q ++ [q])%list (done_a ++ [a])%list).
    rewrite !length_app in IH. simpl in IH.
    rewrite <- !app_assoc in IH. simpl in IH.
    rewrite Nat.add_1_r in IH. rewrite <- Hd.
    rewrite IH by (simpl in Hl; lia).
    now rewrite <- app_assoc.
Qed.

(** [create_default_template] on lists of one length: a record per pair,
    in order, and no exception. *)
Lemma create_default_template_pairs (qs ans : list string) (w : World) :
  List.length qs = List.length ans ->
  create_default_template qs ans w
  = (Return (map (fun qa => [("input", fst qa); ("output", snd qa)])
                 (combine qs ans)), w).
Proof.
  intros Hl. unfold create_default_template.
  rewrite Hl, Nat.eqb_refl. simpl. rewrite <- Hl.
  exact (default_loop_pairs qs ans [] [] [] w eq_refl Hl).
Qed.

(** C4. Whenever the question list and the answer list differ in length,
    every formatter returns its empty result and raises nothing: the
    empty list for the default and the gemma (role pairs) templates, the
    wrapper with an empty list of conversations for the llama
    (conversation) template; the world is left as it was. *)
Theorem length_mismatch_yields_empty (qs ans : list string) (w : World) :
  List.length qs <> List.length ans ->
  create_default_template qs ans w = (Return [], w)
  /\ create_gemma_template qs ans w = (Return [], w)
  /\ create_llama_template qs ans w = (Return [("conversations", [])], w).
Proof.
  intros Hne. apply Nat.eqb_neq in Hne.
  unfold create_default_template, create_gemma_template,
    create_llama_template.
  rewrite Hne. simpl. repeat split; reflexivity.
Qed.

(** C8. For every template kind that is not supported, which is to say
    whose lowercase form is not listed in [supported_templates],
    [create_template] returns, without raising, a value set apart from
    every dataset: a [str] that starts with "Error:" and ends with the
    supported kinds joined by ", ".  A supported kind never yields a
    [str], and [save_dataset] recognises the error value and writes
    nothing. *)
Theorem unsupported_template_error_value (template : string)
    (qs ans supported : list string) (w : World) :
  str_in (lower template) supported = false ->
  create_template template qs ans supported w
    = (Return (VStr (unsupported_template_error template supported)), w)
  /\ startswith "Error:" (unsupported_template_error template supported)
     = true
  /\ (exists head,
        unsupported_template_error template supported
        = head ++ join ", " supported)
  /\ (forall out_dir,
        save_dataset (VStr (unsupported_template_error template supported))
          template out_dir w = (Return tt, w))
  /\ (forall template' qs' ans' v (w1 w2 : World),
        str_in (lower template') supported = true ->
        create_template template' qs' ans' supported w1 = (Return v, w2) ->
        is_str v = false).
Proof.
  intros Hun. repeat split.
  - unfold create_template. now rewrite Hun.
  - exists ("Error: Unsupported template '" ++ template
            ++ "'. Choose from: ").
    unfold unsupported_template_error.
    now rewrite !app_str_assoc.
  - intros template' qs' ans' v w1 w2 Hin. unfold create_template.
    rewrite Hin. simpl.
    repeat match goal with
           | |- context [if ?b then _ else _] => destruct b
           end;
      unfold bind, ret;
      try match goal with
          | |- context [match ?c w1 with _ => _ end] =>
              destruct (c w1) as [[?|?] ?]
          end;
      intros H; inversion H; reflexivity.
Qed.

(** C9. The kind is read without regard to case: whenever the lowercase
    form of [template] is supported, [create_template] does on
    [template] exactly what it does on [lower template], for all lists
    of questions and answers (of one length or not). *)
Theorem create_template_ignores_case (template : string)
    (qs ans supported : list string) (w : World) :
  str_in (lower template) supported = true ->
  create_template template qs ans supported w
  = create_template (lower template) qs ans supported w.
Proof.
  intros Hin. unfold create_template.
  rewrite lower_idempotent, Hin. reflexivity.
Qed.

End WithEnv.

Import Scripted.

Lemma length_mismatch_yields_empty_witness :
  create_default_template ["Q1"] ["A1"; "A2"] Scripted.world_unreachable
    = (Return [], Scripted.world_unreachable)
  /\ create_gemma_template ["Q1"] ["A1"; "A2"] Scripted.world_unreachable
     = (Return [], Scripted.world_unreachable)
  /\ create_llama_template ["Q1"] ["A1"; "A2"] Scripted.world_unreachable
     = (Return [("conversations", [])], Scripted.world_unreachable).
Proof.
  apply (length_mismatch_yields_empty (World := Scripted.world)
           ["Q1"] ["A1"; "A2"]).
  discriminate.
Defined.

Lemma unsupported_template_error_value_witness :
  create_template "alpaca" ["Q1"] ["A1"] ["default"; "gemma"; "llama"]
    Scripted.world_unreachable
  = (Return
       (VStr (unsupported_template_error "alpaca"
                ["default"; "gemma"; "llama"])),
     Scripted.world_unreachable).
Proof.
  apply (unsupported_template_error_value (World := Scripted.world)
           "alpaca" ["Q1"] ["A1"] ["default"; "gemma"; "llama"]).
  reflexivity.
Defined.

Lemma create_template_ignores_case_witness :
  create_template "GEMMA" ["Q1"] ["A1"] ["default"; "gemma"; "llama"]
    Scripted.world_unreachable
  = create_template (lower "GEMMA") ["Q1"] ["A1"]
      ["default"; "gemma"; "llama"] Scripted.world_unreachable.
Proof.
  apply (create_template_ignores_case (World := Scripted.world)).
  reflexivity.
Defined.

(** The three templates on one pair of lists of equal length. *)
Example default_template_two_pairs :
  fst (create_template "default" ["Q1"; "Q2"] ["A1"; "A2"]
         ["default"; "gemma"; "llama"] world_spent)
  = Return (VList [[("input", "Q1"); ("output", "A1")];
                   [("input", "Q2"); ("output", "A2")]]).
Proof. reflexivity. Qed.

Example gemma_template_one_pair :
  fst (create_template "gemma" ["Q1"] ["A1"]
         ["default"; "gemma"; "llama"] world_spent)
  = Return (VList [[("content", "Q1"); ("role", "user")];
                   [("content", "A1"); ("role", "assistant")]]).
Proof. reflexivity. Qed.

Example llama_template_one_pair :
  fst (create_template "llama" ["Q1"] ["A1"]
         ["default"; "gemma"; "llama"] world_spent)
  = Return (VDict [("conversations",
                    [[("from", "human"); ("value", "Q1")];
                     [("from", "gpt"); ("value", "A1")]])]).
Proof. reflexivity. Qed.

End Formatter.

(* ===================================================================== *)
(** * The Answer Generator                                                *)
(* ===================================================================== *)

Module AnswerGenerator.
Import Py Effects Answers AnswersSpec PyFacts.

Section WithEnv.
Context {World : Type} {E : Env World}.
Variables (document_content model : string) (temperature : float).

Local Abbreviation calls := (single_calls document_content model temperature).
Local Abbreviation step :=
  (answer_and_append document_content model temperature).

(** One call returns unless the client raises something that is not an
    [Exception]. *)
Lemma answer_question_ollama_returns (question : string) (w : World) :
  (forall msgs e w1,
      ollama_chat model msgs temperature w = (Raise e, w1) ->
      is_Exception e = true) ->
  exists r w1,
    answer_question_ollama question document_content model temperature w
    = (Return r, w1).
Proof.
  intros Hexc. unfold answer_question_ollama.
  destruct (truthy document_content); simpl; [|now eexists _, _].
  destruct (truthy question); simpl; [|now eexists _, _].
  unfold try_except, bind.
  destruct (ollama_chat _ _ _ w) as [[reply|e] w1] eqn:Hchat.
  - now eexists _, _.
  - rewrite (Hexc _ _ _ Hchat). destruct e; now eexists _, _.
Qed.

(** The loop of the batch, started with [acc]: it appends one entry per
    call. *)
Lemma batch_loop (qs : list string) (w : World)
    (rs : list (option string)) (w' : World) :
  calls qs w rs w' ->
  forall acc,
    for_each qs step acc w = (Return (acc ++ map batch_entry rs)%list, w').
Proof.
  induction 1 as [w | q qs w r w1 rs w2 Hcall _ IH]; intros acc; simpl.
  - unfold ret. now rewrite app_nil_r.
  - unfold bind at 1. unfold answer_and_append at 1. unfold bind at 1.
    rewrite Hcall. unfold ret at 1.
    replace (match r with Some a => a | None => answer_fallback end)
      with (batch_entry r) by now destruct r.
    rewrite IH, <- app_assoc. reflexivity.
Qed.

Lemma calls_length (qs : list string) (w : World)
    (rs : list (option string)) (w' : World) :
  calls qs w rs w' -> List.length rs = List.length qs.
Proof. induction 1; simpl; congruence. Qed.

(** C2. For every list of questions and every pattern of outcomes of the
    single-question calls (each one returning an answer or [None]), the
    batch returns a list as long as the question list, in the order of
    the questions: index [i] holds the answer of the call on question
    [i] when that call returned one, and exactly "Error occurred while
    generating this answer." when it returned [None].  The batch is not
    cut short by such a failure. *)
Theorem batch_answers_aligned (qs : list string) (w : World)
    (rs : list (option string)) (w' : World) :
  calls qs w rs w' ->
  exists answers,
    answers_questions_ollama document_content qs model temperature w
      = (Return answers, w')
    /\ List.length answers = List.length qs
    /\ (forall i a, nth_error rs i = Some (Some a) ->
                    nth_error answers i = Some a)
    /\ (forall i, nth_error rs i = Some None ->
                  nth_error answers i
                  = Some "Error occurred while generating this answer.").
Proof.
  intros Hcalls. exists (map batch_entry rs). repeat split.
  - unfold answers_questions_ollama.
    now rewrite (batch_loop _ _ _ _ Hcalls).
  - rewrite length_map. eapply calls_length, Hcalls.
  - intros i a Hi. now rewrite nth_error_map, Hi.
  - intros i Hi. now rewrite nth_error_map, Hi.
Qed.

(** The calls of a batch all return when the client raises nothing but
    [Exception]s; then the batch returns as well. *)
Lemma calls_exist (qs : list string) :
  (forall msgs e w w1,
      ollama_chat model msgs temperature w = (Raise e, w1) ->
      is_Exception e = true) ->
  forall w, exists rs w', calls qs w rs w'.
Proof.
  intros Hexc. induction qs as [|q qs IH]; intros w.
  - exists [], w. constructor.
  - destruct (answer_question_ollama_returns q w) as (r & w1 & Hq).
    { intros msgs e w1. apply Hexc. }
    destruct (IH w1) as (rs & w2 & Hrs).
    exists (r :: rs), w2. econstructor; eassumption.
Qed.

End WithEnv.

Section Stripping.
Context {World : Type} {E : Env World}.

(** C10. Whenever the model replies, [answer_question_ollama] returns
    the reply without its leading and trailing whitespace and otherwise
    unchanged: the reply is whitespace, then the answer, then
    whitespace, and the answer neither starts nor ends with whitespace.
    A reply that is the abstention sentence between whitespace is
    returned as that very sentence. *)
Theorem answer_is_stripped_reply (question context model : string)
    (temperature : float) (w : World) (reply : string) (w' : World) :
  truthy context = true ->
  truthy question = true ->
  ollama_chat model [Message "user" (answer_prompt context question)]
    temperature w = (Return reply, w') ->
  answer_question_ollama question context model temperature w
    = (Return (Some (strip reply)), w')
  /\ (exists l r,
        reply = l ++ strip reply ++ r
        /\ forallb_str isspace l = true /\ forallb_str isspace r = true)
  /\ Parser.first_char_is isspace (strip reply) = false
  /\ last_char_is isspace (strip reply) = false
  /\ (forall l r,
        forallb_str isspace l = true -> forallb_str isspace r = true ->
        reply = l ++ abstention_sentinel ++ r ->
        strip reply = abstention_sentinel).
Proof.
  intros Hc Hq Hchat. split; [|split; [|split; [|split]]].
  - unfold answer_question_ollama. rewrite Hc, Hq. simpl.
    unfold try_except, bind. now rewrite Hchat.
  - unfold strip, strip_by.
    destruct (lstrip_by_split isspace reply) as (l & Hl & Hpl).
    destruct (rstrip_by_split isspace (lstrip_by isspace reply))
      as (r & Hr & Hpr).
    exists l, r. repeat split; try assumption.
    now rewrite <- Hr.
  - unfold strip, strip_by.
    apply rstrip_by_keeps_first, lstrip_by_first.
  - apply rstrip_by_last.
  - intros l r Hl Hr ->. unfold strip, strip_by.
    rewrite lstrip_by_all by exact Hl.
    rewrite (lstrip_by_stop isspace (abstention_sentinel ++ r)) by reflexivity.
    now rewrite rstrip_by_all by exact Hr.
Qed.

End Stripping.

Import Scripted.

Lemma batch_answers_aligned_witness :
  exists answers,
    answers_questions_ollama "Some text." ["Q1"; "Q2"; "Q3"] "llama3"
      0.25%float Scripted.world_three_replies
    = (Return answers, Scripted.world_spent)
    /\ List.length answers = 3
    /\ (forall i a,
          nth_error [Some "A1"; None; Some "A3"] i = Some (Some a) ->
          nth_error answers i = Some a)
    /\ (forall i,
          nth_error [Some "A1"; None; Some "A3"] i = Some None ->
          nth_error answers i
          = Some "Error occurred while generating this answer.").
Proof.
  apply (batch_answers_aligned (World := Scripted.world)
           "Some text." "llama3" 0.25%float ["Q1"; "Q2"; "Q3"]
           Scripted.world_three_replies [Some "A1"; None; Some "A3"]
           Scripted.world_spent).
  repeat (econstructor; [vm_compute; reflexivity|]). constructor.
Defined.

Lemma answer_is_stripped_reply_witness :
  answer_question_ollama "What is X?" "Some text." "llama3" 0.25%float
    Scripted.world_abstention
  = (Return
       (Some (strip ("  " ++ abstention_sentinel ++ " " ++ nl))),
     Scripted.world_spent).
Proof.
  apply (answer_is_stripped_reply (World := Scripted.world)
           "What is X?" "Some text." "llama3" 0.25%float
           Scripted.world_abstention).
  - reflexivity.
  - reflexivity.
  - reflexivity.
Defined.

End AnswerGenerator.

(* ===================================================================== *)
(** * The Question Generator and the Orchestrator                         *)
(* ===================================================================== *)

Module Orchestrator.
Import Py Effects Dataset Parser Questions Utils Main PyFacts.

Section WithEnv.
Context {World : Type} {E : Env World}.

(** A failed model check makes [main] return [None], which [sys.exit]
    turns into exit status 0. *)
Lemma main_after_failed_check (cfg : config) (args : arguments)
    (w w1 w2 : World) (doc : string) :
  get_document_content (file args) (SUPPORTED_FILE_TYPES cfg) w
    = (Return (Some doc), w1) ->
  truthy (strip doc) = true ->
  check_ollama (model_gen args) (model_ret args)
    (DEFAULT_GEN_OLLAMA_MODEL cfg) (DEFAULT_RET_OLLAMA_MODEL cfg) w1
    = (Return None, w2) ->
  main cfg args w = (Return None, w2) /\ script cfg args w = (0%Z, w2).
Proof.
  intros Hdoc Hne Hcheck.
  assert (Hmain : main cfg args w = (Return None, w2)).
  { unfold main. unfold bind at 1. rewrite Hdoc, Hne. simpl.
    unfold bind at 1. now rewrite Hcheck. }
  split; [exact Hmain|]. unfold script. now rewrite Hmain.
Qed.

(** An unreachable serving process makes [check_ollama] return [None]. *)
Lemma check_ollama_unreachable (mg mr dg dr : string) (w w1 : World)
    (e : exception) :
  ollama_list w = (Raise e, w1) ->
  is_Exception e = true ->
  check_ollama mg mr dg dr w = (Return None, w1).
Proof.
  intros Hlist He. unfold check_ollama, check_ollama_connection.
  unfold bind at 1. unfold try_except, bind. now rewrite Hlist, He.
Qed.

(** A missing generation model makes [check_ollama] return [None]. *)
Lemma check_ollama_missing_model (mg mr dg dr : string) (w w1 w2 : World)
    (names1 names2 : list string) :
  ollama_list w = (Return names1, w1) ->
  ollama_list w1 = (Return names2, w2) ->
  str_in mg names2 = false ->
  check_ollama mg mr dg dr w = (Return None, w2).
Proof.
  intros H1 H2 Hmiss. unfold check_ollama, check_ollama_connection.
  unfold bind at 1. unfold try_except at 1. unfold bind at 1.
  rewrite H1. unfold ret at 1. simpl.
  unfold try_except, bind. now rewrite H2, Hmiss.
Qed.

(** Without questions, be it [None] or the empty list, [main] returns 1. *)
Lemma main_without_questions (cfg : config) (args : arguments)
    (w w1 w2 w3 : World) (doc : string) (g : option (list string)) :
  get_document_content (file args) (SUPPORTED_FILE_TYPES cfg) w
    = (Return (Some doc), w1) ->
  truthy (strip doc) = true ->
  check_ollama (model_gen args) (model_ret args)
    (DEFAULT_GEN_OLLAMA_MODEL cfg) (DEFAULT_RET_OLLAMA_MODEL cfg) w1
    = (Return (Some true), w2) ->
  generate_questions_ollama doc
    (int_or (questions args) (DEFAULT_NUM_QUESTIONS cfg))
    (str_or (model_gen args) (DEFAULT_GEN_OLLAMA_MODEL cfg))
    (float_or (gen_temp args) (DEFAULT_GEN_TEMPERATURE cfg))
    (MAX_GEN_PROMPT_CONTENT_LEN cfg) w2 = (Return g, w3) ->
  g = None \/ g = Some [] ->
  main cfg args w = (Return (Some 1%Z), w3)
  /\ script cfg args w = (1%Z, w3).
Proof.
  intros Hdoc Hne Hcheck Hgen Hg.
  assert (Hmain : main cfg args w = (Return (Some 1%Z), w3)).
  { unfold main. unfold bind at 1. rewrite Hdoc, Hne. simpl.
    unfold bind at 1. rewrite Hcheck. unfold bind at 1. rewrite Hgen.
    now destruct Hg as [-> | ->]. }
  split; [exact Hmain|]. unfold script. now rewrite Hmain.
Qed.

(** C6, as the code has it. Whenever the model call succeeds and the
    Response Parser extracts no question, [generate_questions_ollama]
    returns the empty list, whereas on an error reported by the model (or
    any other [Exception]) it returns [None]; the orchestrator ends the
    run with exit status 1 on either result. *)
Theorem unparseable_reply_yields_empty_list (content : string)
    (num_questions : Z) (model : string) (temperature : float)
    (max_len : Z) (w : World) (reply : string) (w' : World) :
  truthy content = true ->
  ollama_chat model
    [Message "user"
       (generation_prompt num_questions (slice_to max_len content))]
    temperature w = (Return reply, w') ->
  parse_questions_from_response reply = [] ->
  generate_questions_ollama content num_questions model temperature max_len w
    = (Return (Some []), w')
  /\ (forall (w0 w1 : World) e,
        ollama_chat model
          [Message "user"
             (generation_prompt num_questions (slice_to max_len content))]
          temperature w0 = (Raise e, w1) ->
        is_Exception e = true ->
        generate_questions_ollama content num_questions model temperature
          max_len w0 = (Return None, w1))
  /\ (forall cfg args (v v1 v2 v3 : World) doc g,
        get_document_content (file args) (SUPPORTED_FILE_TYPES cfg) v
          = (Return (Some doc), v1) ->
        truthy (strip doc) = true ->
        check_ollama (model_gen args) (model_ret args)
          (DEFAULT_GEN_OLLAMA_MODEL cfg) (DEFAULT_RET_OLLAMA_MODEL cfg) v1
          = (Return (Some true), v2) ->
        generate_questions_ollama doc
          (int_or (questions args) (DEFAULT_NUM_QUESTIONS cfg))
          (str_or (model_gen args) (DEFAULT_GEN_OLLAMA_MODEL cfg))
          (float_or (gen_temp args) (DEFAULT_GEN_TEMPERATURE cfg))
          (MAX_GEN_PROMPT_CONTENT_LEN cfg) v2 = (Return g, v3) ->
        g = None \/ g = Some [] ->
        script cfg args v = (1%Z, v3)).
Proof.
  intros Hc Hchat Hparse. split; [|split].
  - unfold generate_questions_ollama. rewrite Hc. simpl.
    unfold try_except, bind. rewrite Hchat, Hparse. reflexivity.
  - intros w0 w1 e Hraise He. unfold generate_questions_ollama.
    rewrite Hc. simpl. unfold try_except, bind. rewrite Hraise, He.
    now destruct e.
  - intros cfg args v v1 v2 v3 doc g Hdoc Hne Hcheck Hgen Hg.
    eapply main_without_questions; eassumption.
Qed.

End WithEnv.

(** ** Runs in the scripted world *)

Import Scripted.

(** C1, at the failing runs. When the serving process is unreachable, and
    when the model is missing, [check_ollama] returns [None], [main]
    returns [None] and the process exits with status 0, not 1. *)
Theorem model_unavailable_exit_status :
  fst (check_ollama "llama3" "llama3" "llama3" "llama3" world_unreachable)
    = Return None
  /\ fst (main cfg0 args0 world_unreachable) = Return None
  /\ fst (script cfg0 args0 world_unreachable) = 0%Z
  /\ fst (check_ollama "llama3" "llama3" "llama3" "llama3"
            world_model_missing) = Return None
  /\ fst (main cfg0 args0 world_model_missing) = Return None
  /\ fst (script cfg0 args0 world_model_missing) = 0%Z.
Proof. repeat split; vm_compute; reflexivity. Qed.

(** C6 does not hold as it is stated: on a reply without any question the
    generator returns the empty list, on a model error it returns [None],
    and the two results differ. *)
Lemma unparseable_reply_differs_from_model_error :
  fst (generate_questions_ollama "Some text." 2 "llama3" 0.5%float 4000
         world_prose_reply) = Return (Some [])
  /\ fst (generate_questions_ollama "Some text." 2 "llama3" 0.5%float 4000
            world_model_error) = Return None
  /\ fst (generate_questions_ollama "Some text." 2 "llama3" 0.5%float 4000
            world_prose_reply)
     <> fst (generate_questions_ollama "Some text." 2 "llama3" 0.5%float 4000
               world_model_error).
Proof. repeat split; vm_compute; try reflexivity; discriminate. Qed.

Lemma unparseable_reply_yields_empty_list_witness :
  generate_questions_ollama "Some text." 2 "llama3" 0.5%float 4000
    world_prose_reply
  = (Return (Some []),
     World (Some "Some text.") [Return ["llama3"]; Return ["llama3"]] [] []).
Proof.
  apply (unparseable_reply_yields_empty_list (World := world)
           "Some text." 2 "llama3" 0.5%float 4000 world_prose_reply
           "I cannot help with that.").
  - reflexivity.
  - reflexivity.
  - vm_compute. reflexivity.
Defined.

End Orchestrator.

(* ===================================================================== *)
(** * The two patterns never backtrack                                    *)
(* ===================================================================== *)

Module ReFacts.
Import Py Re Parser ParserSpec PyFacts.

(** When the rest of the pattern cannot start inside the class, the
    repetition takes the longest run. *)
Lemma greedy_no_backtrack {R : Type} (p : ascii -> bool)
    (k : string -> option ascii -> string -> option R)
    (prev : option ascii) (s : string) :
  (forall m pv c r, p c = true -> k m pv (String c r) = None) ->
  greedy p k prev s
  = k (take_while p s) (last_of prev (take_while p s)) (lstrip_by p s).
Proof.
  revert k prev. induction s as [|c s IH]; intros k prev Hk; simpl.
  - reflexivity.
  - destruct (p c) eqn:Hc; [|reflexivity].
    rewrite IH by (intros; now apply Hk). simpl.
    destruct (k (String c (take_while p s)) _ _) eqn:Hres; [reflexivity|].
    now apply Hk.
Qed.

(** When the rest of the pattern always matches, likewise. *)
Lemma greedy_total {R : Type} (p : ascii -> bool)
    (k : string -> option ascii -> string -> option R)
    (prev : option ascii) (s : string) :
  (forall m pv r, k m pv r <> None) ->
  greedy p k prev s
  = k (take_while p s) (last_of prev (take_while p s)) (lstrip_by p s).
Proof.
  revert k prev. induction s as [|c s IH]; intros k prev Hk; simpl.
  - reflexivity.
  - destruct (p c) eqn:Hc; [|reflexivity].
    rewrite IH by (intros; now apply Hk). simpl.
    destruct (k (String c (take_while p s)) _ _) eqn:Hres; [reflexivity|].
    now apply Hk in Hres.
Qed.

(** [question_pattern] at a position: a start of line, then
    [numbered_item]. *)
Lemma match_question_pattern (prev : option ascii) (s : string) :
  match_at question_pattern prev s
  = if at_bol true prev then numbered_item s else None.
Proof.
  unfold match_at, question_pattern, numbered_item.
  cbn [atoms multiline exec].
  destruct (at_bol true prev); [|reflexivity].
  rewrite greedy_no_backtrack.
  2:{ intros _ pv c r Hc. now rewrite (isspace_not_isdecimal c Hc). }
  destruct (lstrip_by isspace s) as [|d s2]; [reflexivity|].
  destruct (isdecimal d); [|reflexivity].
  rewrite greedy_no_backtrack.
  2:{ intros _ pv c r Hc. now rewrite (isdecimal_not_period c Hc). }
  destruct (lstrip_by isdecimal s2) as [|c s4]; [reflexivity|].
  destruct (Ascii.eqb "." c); [|reflexivity].
  rewrite greedy_total.
  2:{ intros _ pv r. rewrite greedy_total; discriminate. }
  rewrite greedy_total by discriminate. reflexivity.
Qed.

(** Enough fuel is as good as more. *)
Lemma findall_from_fuel (pat : pattern) (n1 n2 : nat) (prev : option ascii)
    (s : string) :
  String.length s < n1 -> String.length s < n2 ->
  findall_from n1 pat prev s = findall_from n2 pat prev s.
Proof.
  revert n2 prev s.
  induction n1 as [|n1 IH]; intros [|n2] prev s H1 H2; try lia. simpl.
  assert (Hstep :
    match s with
    | "" => []
    | String c s' => findall_from n1 pat (Some c) s'
    end
    = match s with
      | "" => []
      | String c s' => findall_from n2 pat (Some c) s'
      end).
  { destruct s as [|c s']; [reflexivity|]. simpl in H1, H2. apply IH; lia. }
  destruct (match_at pat prev s) as [[[g pv] r]|]; [|exact Hstep].
  destruct (Nat.ltb_spec (String.length r) (String.length s)).
  - f_equal. apply IH; lia.
  - now rewrite Hstep.
Qed.

End ReFacts.

(* ===================================================================== *)
(** * The primary strategy on numbered-list text                          *)
(* ===================================================================== *)

Module PrimaryStrategy.
Import Py Re Parser ParserSpec PyFacts ReFacts.

Lemma length_lstrip_by p s :
  String.length (lstrip_by p s) <= String.length s.
Proof.
  induction s as [|c s IH]; simpl; [lia|].
  destruct (p c); simpl; lia.
Qed.

(** A match of [question_pattern] is never empty. *)
Lemma numbered_item_shorter s g pv r :
  numbered_item s = Some (g, pv, r) -> String.length r < String.length s.
Proof.
  unfold numbered_item.
  pose proof (length_lstrip_by isspace s) as H1.
  destruct (lstrip_by isspace s) as [|d s2]; [discriminate|].
  destruct (isdecimal d); [|discriminate].
  pose proof (length_lstrip_by isdecimal s2) as H2.
  destruct (lstrip_by isdecimal s2) as [|c s4]; [discriminate|].
  destruct (Ascii.eqb "." c); [|discriminate].
  intros H. inversion H; subst.
  pose proof (length_lstrip_by isspace s4) as H3.
  pose proof (length_lstrip_by not_newline (lstrip_by isspace s4)) as H4.
  simpl in *. lia.
Qed.

(** One step of the scan at a start of line ... *)
Lemma scan_at_bol prev s :
  at_bol true prev = true ->
  scan prev s
  = match numbered_item s with
    | Some (g, pv, r) => g :: scan pv r
    | None => match s with
              | "" => []
              | String c s' => scan (Some c) s'
              end
    end.
Proof.
  intros Hbol. unfold scan at 1. cbn [findall_from].
  rewrite match_question_pattern, Hbol.
  destruct (numbered_item s) as [[[g pv] r]|] eqn:Hitem.
  - pose proof (numbered_item_shorter _ _ _ _ Hitem) as Hlt.
    apply Nat.ltb_lt in Hlt as Hltb. rewrite Hltb. f_equal.
    unfold scan. apply findall_from_fuel; lia.
  - destruct s; reflexivity.
Qed.

(** ... and inside a line. *)
Lemma scan_inside prev c s :
  at_bol true prev = false -> scan prev (String c s) = scan (Some c) s.
Proof.
  intros Hbol. unfold scan at 1. cbn [findall_from].
  rewrite match_question_pattern, Hbol. reflexivity.
Qed.

Lemma scan_inside_end prev : scan prev "" = [].
Proof.
  unfold scan. cbn [findall_from String.length].
  rewrite match_question_pattern.
  destruct (at_bol true prev); reflexivity.
Qed.



(** *** Prefixes inside and outside a class *)



Lemma lstrip_by_blank p s : forallb_str p s = true -> lstrip_by p s = "".
Proof.
  intros H. rewrite <- (app_str_nil s). now rewrite lstrip_by_all.
Qed.







(** *** One line *)





(** *** All the lines *)





(** *** From the matches to the questions *)






(** *** The guards around the primary strategy *)

(** No match in a text of whitespace. *)
Lemma scan_blank_text s :
  forallb_str isspace s = true -> forall prev, scan prev s = [].
Proof.
  induction s as [|c s IH]; intros Hs prev.
  - apply scan_inside_end.
  - destruct (at_bol true prev) eqn:Hbol.
    + rewrite scan_at_bol by exact Hbol. unfold numbered_item.
      rewrite lstrip_by_blank by exact Hs.
      simpl in Hs. apply andb_true_iff in Hs as [_ Hs]. now apply IH.
    + rewrite scan_inside by exact Hbol.
      simpl in Hs. apply andb_true_iff in Hs as [_ Hs]. now apply IH.
Qed.

Lemma primary_questions_blank text :
  forallb_str isspace text = true -> primary_questions text = [].
Proof.
  intros H. unfold primary_questions, findall.
  change (findall_from _ question_pattern None text) with (scan None text).
  now rewrite scan_blank_text.
Qed.

(** The first test of the parser: the text is empty or blank. *)
Lemma blank_guard text :
  negb (truthy text) || negb (truthy (strip text)) = true ->
  forallb_str isspace text = true.
Proof.
  intros H. apply strip_by_empty_inv. fold (strip text).
  destruct text as [|c t]; [reflexivity|]. simpl in H.
  destruct (strip (String c t)); [reflexivity | discriminate].
Qed.

(** An empty or blank text yields no question. *)
Lemma parse_blank_text text :
  forallb_str isspace text = true -> parse_questions_from_response text = [].
Proof.
  intros Hblank. unfold parse_questions_from_response, strip.
  rewrite strip_by_blank by exact Hblank. simpl. now rewrite orb_true_r.
Qed.

(** What the primary strategy finds is what the parser returns. *)
Lemma parse_primary_found text :
  primary_questions text <> [] ->
  parse_questions_from_response text = primary_questions text.
Proof.
  intros Hfound. unfold parse_questions_from_response.
  destruct (negb (truthy text) || negb (truthy (strip text))) eqn:Hguard.
  - apply blank_guard, primary_questions_blank in Hguard. congruence.
  - destruct (primary_questions text); [congruence | reflexivity].
Qed.

(** When it finds nothing, the parser returns what the fallback finds. *)
Lemma parse_primary_empty text :
  primary_questions text = [] ->
  forallb_str isspace text = false ->
  parse_questions_from_response text = fallback_questions text.
Proof.
  intros Hnone Hblank. unfold parse_questions_from_response.
  destruct (negb (truthy text) || negb (truthy (strip text))) eqn:Hguard.
  - apply blank_guard in Hguard. congruence.
  - rewrite Hnone. simpl.
    destruct text as [|c t]; [discriminate|]. simpl.
    now destruct (fallback_questions (String c t)).
Qed.





End PrimaryStrategy.

(* ===================================================================== *)
(** * The fallback strategy                                               *)
(* ===================================================================== *)

Module FallbackStrategy.
Import Py Re Parser ParserSpec PyFacts ReFacts PrimaryStrategy.

Lemma isspace_not_marker c : isspace c = true -> marker_class c = false.
Proof. each_char c. Qed.

Lemma last_of_some c m : exists c', last_of (Some c) m = Some c'.
Proof.
  revert c. induction m as [|d m IH]; intros c; simpl; [now exists c|].
  apply IH.
Qed.

(** [marker_pattern] at a position: only at the start of the subject, then
    blanks, marker characters, blanks. *)
Lemma match_marker_pattern prev s :
  match_at marker_pattern prev s
  = if at_bol false prev then
      match lstrip_by isspace s with
      | String d s2 =>
          if marker_class d then
            Some ("",
                  last_of (last_of (Some d) (take_while marker_class s2))
                    (take_while isspace (lstrip_by marker_class s2)),
                  lstrip_by isspace (lstrip_by marker_class s2))
          else None
      | "" => None
      end
    else None.
Proof.
  unfold match_at, marker_pattern. cbn [atoms multiline exec].
  destruct (at_bol false prev); [|reflexivity].
  rewrite greedy_no_backtrack.
  2:{ intros _ pv c r Hc. now rewrite (isspace_not_marker c Hc). }
  destruct (lstrip_by isspace s) as [|d s2]; [reflexivity|].
  destruct (marker_class d); [|reflexivity].
  rewrite greedy_total.
  2:{ intros _ pv r. rewrite greedy_total; discriminate. }
  rewrite greedy_total by discriminate. reflexivity.
Qed.

(** Past the start of the subject nothing is replaced. *)
Lemma sub_empty_past_start fuel c r :
  sub_empty_from fuel marker_pattern (Some c) r = r.
Proof.
  revert c r. induction fuel as [|fuel IH]; intros c r;
    cbn [sub_empty_from]; [reflexivity|].
  rewrite match_marker_pattern. cbn [at_bol andb].
  destruct r as [|d r]; [reflexivity|]. now rewrite IH.
Qed.

(** On a line without leading whitespace, [re.sub] removes the marker
    characters and the blanks after them. *)
Lemma sub_empty_marker line :
  first_char_is isspace line = false ->
  sub_empty marker_pattern line = strip_marker line.
Proof.
  intros Hfirst. unfold sub_empty, strip_marker. cbn [sub_empty_from].
  rewrite match_marker_pattern. simpl at_bol. cbv iota.
  rewrite (lstrip_by_stop isspace line) by exact Hfirst.
  destruct line as [|d s2]; [reflexivity|]. simpl in Hfirst.
  cbn [lstrip_by]. destruct (marker_class d) eqn:Hd.
  - destruct (last_of_some d (take_while marker_class s2)) as [c1 ->].
    destruct (last_of_some c1
                (take_while isspace (lstrip_by marker_class s2))) as [c2 ->].
    pose proof (length_lstrip_by marker_class s2).
    pose proof (length_lstrip_by isspace (lstrip_by marker_class s2)).
    replace (Nat.ltb _ _) with true
      by (symmetry; apply Nat.ltb_lt; simpl; lia).
    apply sub_empty_past_start.
  - rewrite sub_empty_past_start. simpl. now rewrite Hfirst.
Qed.

Lemma char_in_lstrip_by p c s :
  p c = false -> char_in c (lstrip_by p s) = char_in c s.
Proof.
  intros Hc. induction s as [|d s IH]; simpl; [reflexivity|].
  destruct (p d) eqn:Hd; [|reflexivity].
  rewrite IH. destruct (Ascii.eqb_spec c d) as [->|]; [congruence|reflexivity].
Qed.

(** A question mark is never part of a marker. *)
Lemma question_mark_kept line :
  char_in "?" (strip_marker line) = char_in "?" line.
Proof.
  unfold strip_marker. now rewrite !char_in_lstrip_by by reflexivity.
Qed.

Lemma strip_first s : first_char_is isspace (strip s) = false.
Proof.
  unfold strip, strip_by. apply rstrip_by_keeps_first, lstrip_by_first.
Qed.

(** One round of the loop over the lines does what the heuristic says. *)
Lemma keep_line_accept potential line0 :
  keep_line potential line0
  = (potential ++ heuristic_accept (strip line0))%list.
Proof.
  unfold keep_line, heuristic_accept.
  rewrite (sub_empty_marker (strip line0)) by apply strip_first.
  rewrite question_mark_kept.
  set (line := strip line0).
  fold (is_bullet).
  change (first_char_is (fun c => char_in c "-*") line)
    with (first_char_is is_bullet line).
  destruct (Nat.ltb 2 (String.length line)) eqn:Hlen.
  - assert (Ht : truthy line = true) by now destruct line.
    rewrite Ht. simpl.
    destruct (first_char_is isdigit line || first_char_is is_bullet line);
      simpl.
    + destruct (char_in "?" line) eqn:Hq.
      * assert (Hc : truthy (strip_marker line) = true).
        { pose proof (question_mark_kept line) as Hk. rewrite Hq in Hk.
          now destruct (strip_marker line). }
        now rewrite Hc.
      * rewrite andb_false_r. simpl. now rewrite app_nil_r.
    + destruct (char_in "?" line && Nat.ltb 3 (List.length (split_ws line)));
        [reflexivity | now rewrite app_nil_r].
  - rewrite andb_false_r. simpl.
    destruct (char_in "?" line) eqn:Hq.
    + assert (Ht : truthy line = true) by now destruct line.
      rewrite Ht. simpl.
      destruct (Nat.ltb 3 (List.length (split_ws line)));
        [reflexivity | now rewrite app_nil_r].
    + rewrite andb_false_r. simpl. now rewrite app_nil_r.
Qed.

Lemma keep_lines lines potential :
  fold_left keep_line lines potential
  = (potential
     ++ flat_map (fun line => heuristic_accept (strip line)) lines)%list.
Proof.
  revert potential. induction lines as [|l lines IH]; intros potential; simpl.
  - now rewrite app_nil_r.
  - now rewrite IH, keep_line_accept, <- app_assoc.
Qed.

Lemma fallback_is_heuristic text :
  fallback_questions text = heuristic_scan text.
Proof. unfold fallback_questions. now rewrite keep_lines. Qed.

(** The lines of a text are made of characters of the text. *)
Lemma splitlines_from_forall (p : ascii -> bool) n :
  forall s cur, String.length s <= n ->
  forallb_str p cur = true -> forallb_str p s = true ->
  Forall (fun l => forallb_str p l = true) (splitlines_from cur s).
Proof.
  induction n as [|n IH]; intros [|c s] cur Hn Hcur Hs; simpl in *;
    try lia;
    try (destruct (truthy cur); repeat constructor; assumption).
  apply andb_true_iff in Hs as [Hc Hs].
  destruct (is_linebreak c).
  - destruct s as [|d s'].
    + repeat constructor; assumption.
    + simpl in Hs, Hn. apply andb_true_iff in Hs as [Hd Hs'].
      destruct (Ascii.eqb c CR && Ascii.eqb d LF);
        (constructor; [assumption|]); apply IH;
        simpl; try lia; try reflexivity; try assumption.
      now rewrite Hd, Hs'.
  - apply IH; [lia| |assumption].
    rewrite forallb_str_app, Hcur. simpl. now rewrite Hc.
Qed.

(** A blank text has no line the heuristic accepts. *)
Lemma heuristic_scan_blank text :
  forallb_str isspace text = true -> heuristic_scan text = [].
Proof.
  intros Hblank. unfold heuristic_scan, splitlines.
  pose proof (splitlines_from_forall isspace (String.length text) text ""
                (le_n _) eq_refl Hblank) as Hlines.
  induction Hlines as [|l lines Hl _ IH]; simpl; [reflexivity|].
  unfold strip at 1. rewrite strip_by_blank by exact Hl. exact IH.
Qed.

(** What the fallback keeps is never empty. *)
Lemma heuristic_scan_nonempty text q :
  In q (heuristic_scan text) -> q <> "".
Proof.
  unfold heuristic_scan. intros Hin. apply in_flat_map in Hin as (l & _ & Hq).
  unfold heuristic_accept in Hq.
  destruct (_ && _ && char_in "?" (strip_marker (strip l))) eqn:Ha.
  - destruct Hq as [<- | []].
    apply andb_true_iff in Ha as [_ Ha].
    now destruct (strip_marker (strip l)).
  - destruct (char_in "?" (strip l) && _) eqn:Hb; [|destruct Hq].
    destruct Hq as [<- | []].
    apply andb_true_iff in Hb as [Hb _]. now destruct (strip l).
Qed.

(** C7. For every text on which the primary strategy keeps no question
    (in particular when its pattern matches nowhere), the Response Parser
    returns what the per-line heuristic accepts, in the order of the
    lines: a line, stripped, longer than 2 characters that starts with a
    digit or a bullet, without its marker, if what remains holds a question
    mark; a line that holds a question mark and more than 3 tokens, as it
    is.  When the primary strategy keeps a question the fallback does not
    run and the parser returns the primary result.  The text made of the
    lines "- What time is it?" and "- ok" yields ["What time is it?"]. *)
Theorem fallback_after_empty_primary (text : string) :
  (primary_questions text = [] ->
   parse_questions_from_response text = heuristic_scan text)
  /\ (findall question_pattern text = [] -> primary_questions text = [])
  /\ (primary_questions text <> [] ->
      parse_questions_from_response text = primary_questions text)
  /\ parse_questions_from_response ("- What time is it?" ++ nl ++ "- ok")
     = ["What time is it?"].
Proof.
  split; [|split; [|split]].
  - intros Hnone. destruct (forallb_str isspace text) eqn:Hblank.
    + rewrite heuristic_scan_blank by exact Hblank.
      unfold parse_questions_from_response.
      unfold strip. rewrite strip_by_blank by exact Hblank.
      simpl. now rewrite orb_true_r.
    + rewrite parse_primary_empty by assumption.
      apply fallback_is_heuristic.
  - unfold primary_questions. now intros ->.
  - apply parse_primary_found.
  - vm_compute. reflexivity.
Qed.

(** C5, at the failing input. The item "1. *" passes the test on empty
    questions with its asterisk and is then stripped to the empty string,
    which the parser returns as a question. *)
Theorem asterisk_item_yields_empty_question :
  parse_questions_from_response "1. *" = [""]
  /\ In "" (parse_questions_from_response "1. *").
Proof. split; vm_compute; [reflexivity | now left]. Qed.

End FallbackStrategy.

(* ===================================================================== *)
(** * Further properties of the Response Parser                           *)
(* ===================================================================== *)

Module ParserProperties.
Import Py Re Parser ParserSpec Classes PyFacts ReFacts PrimaryStrategy
  FallbackStrategy.

(** *** Classes that survive stripping *)

Lemma forallb_take_while p s : forallb_str p (take_while p s) = true.
Proof.
  induction s as [|c s IH]; simpl; [reflexivity|].
  destruct (p c) eqn:Hc; simpl; [now rewrite Hc | reflexivity].
Qed.

Lemma forallb_lstrip_by p q s :
  forallb_str p s = true -> forallb_str p (lstrip_by q s) = true.
Proof.
  induction s as [|c s IH]; simpl; [reflexivity|]. intros H.
  destruct (q c); [|exact H].
  apply andb_true_iff in H as [_ H]. now apply IH.
Qed.

Lemma forallb_rstrip_by p q s :
  forallb_str p s = true -> forallb_str p (rstrip_by q s) = true.
Proof.
  induction s as [|c s IH]; simpl; [reflexivity|]. intros H.
  apply andb_true_iff in H as [Hc Hs]. specialize (IH Hs).
  destruct (rstrip_by q s) as [|d r].
  - destruct (q c); simpl; [reflexivity | now rewrite Hc].
  - simpl in *. now rewrite Hc.
Qed.

Lemma forallb_strip_by p q s :
  forallb_str p s = true -> forallb_str p (strip_by q s) = true.
Proof.
  intros H. unfold strip_by. now apply forallb_rstrip_by, forallb_lstrip_by.
Qed.

Lemma forallb_strip_marker p line :
  forallb_str p line = true -> forallb_str p (strip_marker line) = true.
Proof.
  intros H. unfold strip_marker. now apply forallb_lstrip_by, forallb_lstrip_by.
Qed.

(** The loop over the matches keeps a class of characters the matches are
    made of. *)
Lemma keep_match_forall p (matches acc : list string) :
  Forall (fun m => forallb_str p m = true) matches ->
  Forall (fun q => forallb_str p q = true) acc ->
  Forall (fun q => forallb_str p q = true) (fold_left keep_match matches acc).
Proof.
  intros Hm. revert acc.
  induction Hm as [|m matches Hp _ IH]; intros acc Hacc; simpl;
    [exact Hacc|].
  apply IH. unfold keep_match. destruct (truthy (strip m)); [|exact Hacc].
  apply Forall_app. split; [exact Hacc|]. constructor; [|constructor].
  unfold strip_chars, strip. now apply forallb_strip_by, forallb_strip_by.
Qed.

(** What the heuristic accepts on a line is made of characters of the
    line. *)
Lemma heuristic_accept_forall p line :
  forallb_str p line = true ->
  Forall (fun q => forallb_str p q = true) (heuristic_accept line).
Proof.
  intros H. unfold heuristic_accept.
  destruct (_ && _ && char_in "?" (strip_marker line)).
  - constructor; [now apply forallb_strip_marker | constructor].
  - destruct (char_in "?" line && _); repeat constructor. exact H.
Qed.

Lemma heuristic_lines_forall p (lines : list string) :
  Forall (fun l => forallb_str p l = true) lines ->
  Forall (fun q => forallb_str p q = true)
    (flat_map (fun line => heuristic_accept (strip line)) lines).
Proof.
  induction 1 as [|l lines Hl _ IH]; simpl; [constructor|].
  apply Forall_app. split; [|exact IH].
  apply heuristic_accept_forall. unfold strip. now apply forallb_strip_by.
Qed.

(** The parser returns nothing, what the primary strategy kept, or what
    the fallback kept. *)
Lemma parse_cases text :
  parse_questions_from_response text = []
  \/ parse_questions_from_response text = primary_questions text
  \/ parse_questions_from_response text = heuristic_scan text.
Proof.
  destruct (primary_questions text) as [|q qs] eqn:Hp.
  - destruct (forallb_str isspace text) eqn:Hblank.
    + left. now apply parse_blank_text.
    + right. right. rewrite parse_primary_empty by assumption.
      apply fallback_is_heuristic.
  - right. left. rewrite <- Hp. apply parse_primary_found. congruence.
Qed.

(** *** Line feeds *)

(** Group 1 of [question_pattern] stops before a line feed. *)
Lemma captures_no_newline fuel prev s :
  Forall (fun g => forallb_str not_newline g = true)
    (findall_from fuel question_pattern prev s).
Proof.
  revert prev s. induction fuel as [|fuel IH]; intros prev s;
    cbn [findall_from]; [constructor|].
  assert (Hstep :
    Forall (fun g => forallb_str not_newline g = true)
      match s with
      | "" => []
      | String c s' => findall_from fuel question_pattern (Some c) s'
      end) by (destruct s; [constructor | apply IH]).
  rewrite match_question_pattern.
  destruct (at_bol true prev); [|exact Hstep].
  destruct (numbered_item s) as [[[g pv] r]|] eqn:Hitem; [|exact Hstep].
  assert (Hg : forallb_str not_newline g = true).
  { unfold numbered_item in Hitem.
    destruct (lstrip_by isspace s) as [|d s2]; [discriminate|].
    destruct (isdecimal d); [|discriminate].
    destruct (lstrip_by isdecimal s2) as [|c s4]; [discriminate|].
    destruct (Ascii.eqb "." c); [|discriminate].
    inversion Hitem; subst. apply forallb_take_while. }
  destruct (Nat.ltb _ _); constructor; try exact Hg; [apply IH | exact Hstep].
Qed.

Lemma no_break_not_newline c : no_break c = true -> not_newline c = true.
Proof. each_char c. Qed.

Lemma forallb_str_impl (p q : ascii -> bool) s :
  (forall c, p c = true -> q c = true) ->
  forallb_str p s = true -> forallb_str q s = true.
Proof.
  intros Hpq. induction s as [|c s IH]; simpl; [reflexivity|]. intros H.
  apply andb_true_iff in H as [Hc Hs]. now rewrite (Hpq c Hc), IH.
Qed.

(** No line of [splitlines] holds a line boundary. *)
Lemma splitlines_from_no_break n :
  forall s cur, String.length s <= n ->
  forallb_str no_break cur = true ->
  Forall (fun l => forallb_str no_break l = true) (splitlines_from cur s).
Proof.
  induction n as [|n IH]; intros [|c s] cur Hn Hcur; simpl in *;
    try lia;
    try (destruct (truthy cur); repeat constructor; assumption).
  destruct (is_linebreak c) eqn:Hc.
  - destruct s as [|d s'].
    + repeat constructor; assumption.
    + simpl in Hn.
      destruct (Ascii.eqb c CR && Ascii.eqb d LF);
        (constructor; [assumption|]); apply IH;
        simpl; try lia; reflexivity.
  - apply IH; [lia|].
    rewrite forallb_str_app, Hcur. simpl. unfold no_break. now rewrite Hc.
Qed.

(** X2. No question the parser returns holds a line feed: every question
    is one line of text. *)
Theorem questions_hold_no_line_feed (text q : string) :
  In q (parse_questions_from_response text) ->
  forallb_str not_newline q = true.
Proof.
  intros Hin.
  assert (Hall : Forall (fun q => forallb_str not_newline q = true)
                   (parse_questions_from_response text)).
  { destruct (parse_cases text) as [-> | [-> | ->]].
    - constructor.
    - unfold primary_questions, findall.
      apply keep_match_forall; [apply captures_no_newline | constructor].
    - unfold heuristic_scan. apply heuristic_lines_forall.
      unfold splitlines.
      pose proof (splitlines_from_no_break (String.length text) text ""
                    (le_n _) eq_refl) as Hlines.
      eapply Forall_impl; [|exact Hlines]. intros l Hl.
      eapply forallb_str_impl; [|exact Hl]. apply no_break_not_newline. }
  rewrite Forall_forall in Hall. now apply Hall.
Qed.

Lemma questions_hold_no_line_feed_witness :
  forallb_str not_newline "What is X?" = true.
Proof.
  apply (questions_hold_no_line_feed
           ("1. What is X?" ++ nl ++ "2. *Why Y?*") "What is X?").
  vm_compute. now left.
Defined.

(** X1. An empty text, or one made of whitespace only, yields no
    question. *)
Theorem blank_text_yields_no_question (text : string) :
  forallb_str isspace text = true ->
  parse_questions_from_response text = [].
Proof. apply parse_blank_text. Qed.

Lemma blank_text_yields_no_question_witness :
  parse_questions_from_response ("  " ++ nl ++ " ") = [].
Proof. apply blank_text_yields_no_question. reflexivity. Defined.

(** *** Texts without digits and question marks *)

Lemma numbered_item_no_decimal s :
  forallb_str no_decimal s = true -> numbered_item s = None.
Proof.
  intros H. apply (forallb_lstrip_by _ isspace) in H. unfold numbered_item.
  destruct (lstrip_by isspace s) as [|d s2]; [reflexivity|].
  simpl in H. apply andb_true_iff in H as [Hd _].
  unfold no_decimal in Hd. apply negb_true_iff in Hd. now rewrite Hd.
Qed.

Lemma findall_no_decimal fuel prev s :
  forallb_str no_decimal s = true ->
  findall_from fuel question_pattern prev s = [].
Proof.
  revert prev s. induction fuel as [|fuel IH]; intros prev s Hs;
    cbn [findall_from]; [reflexivity|].
  rewrite match_question_pattern, numbered_item_no_decimal by exact Hs.
  assert (Hstep :
    match s with
    | "" => []
    | String c s' => findall_from fuel question_pattern (Some c) s'
    end = []).
  { destruct s as [|c s']; [reflexivity|]. simpl in Hs.
    apply andb_true_iff in Hs as [_ Hs]. now apply IH. }
  now destruct (at_bol true prev).
Qed.

Lemma char_in_question_mark s :
  char_in "?" s = negb (forallb_str no_question_mark s).
Proof.
  induction s as [|c s IH]; [reflexivity|].
  cbn [char_in forallb_str]. rewrite IH. unfold no_question_mark.
  now destruct (Ascii.eqb "?" c).
Qed.

Lemma heuristic_accept_no_question_mark line :
  char_in "?" line = false -> heuristic_accept line = [].
Proof.
  intros H. unfold heuristic_accept.
  now rewrite question_mark_kept, H, !andb_false_r.
Qed.

Lemma heuristic_scan_no_question_mark text :
  char_in "?" text = false -> heuristic_scan text = [].
Proof.
  intros H. rewrite char_in_question_mark in H. apply negb_false_iff in H.
  unfold heuristic_scan, splitlines.
  pose proof (splitlines_from_forall no_question_mark (String.length text)
                text "" (le_n _) eq_refl H) as Hlines.
  induction Hlines as [|l lines Hl _ IH]; simpl; [reflexivity|].
  rewrite heuristic_accept_no_question_mark; [exact IH|].
  rewrite char_in_question_mark. apply negb_false_iff.
  unfold strip. now apply forallb_strip_by.
Qed.

(** X3. A text that holds neither a decimal digit nor a question mark
    yields no question: the pattern of the primary strategy matches
    nowhere and the fallback keeps no line. *)
Theorem plain_prose_yields_no_question (text : string) :
  forallb_str no_decimal text = true ->
  char_in "?" text = false ->
  parse_questions_from_response text = [].
Proof.
  intros Hdigits Hmark.
  assert (Hprimary : primary_questions text = []).
  { unfold primary_questions, findall.
    now rewrite findall_no_decimal by exact Hdigits. }
  destruct (parse_cases text) as [H | [H | H]]; rewrite H;
    [reflexivity | exact Hprimary |].
  now apply heuristic_scan_no_question_mark.
Qed.

Lemma plain_prose_yields_no_question_witness :
  parse_questions_from_response
    ("Here is some prose." ++ nl ++ "- and a bullet without a question")
  = [].
Proof. apply plain_prose_yields_no_question; reflexivity. Defined.

(** X4. When the primary strategy keeps nothing, every question the parser
    returns holds a question mark (and so is not empty). *)
Theorem fallback_questions_hold_question_mark (text q : string) :
  primary_questions text = [] ->
  In q (parse_questions_from_response text) ->
  char_in "?" q = true /\ q <> "".
Proof.
  intros Hnone Hin.
  assert (Hq : char_in "?" q = true).
  { destruct (parse_cases text) as [H | [H | H]]; rewrite H in Hin.
    - destruct Hin.
    - rewrite Hnone in Hin. destruct Hin.
    - unfold heuristic_scan in Hin.
      apply in_flat_map in Hin as (l & _ & Hq).
      unfold heuristic_accept in Hq.
      destruct (_ && _ && char_in "?" (strip_marker (strip l))) eqn:Ha.
      + destruct Hq as [<- | []]. now apply andb_true_iff in Ha as [_ Ha].
      + destruct (char_in "?" (strip l) && _) eqn:Hb; [|destruct Hq].
        destruct Hq as [<- | []]. now apply andb_true_iff in Hb as [Hb _]. }
  split; [exact Hq|]. intros ->. discriminate.
Qed.

Lemma fallback_questions_hold_question_mark_witness :
  char_in "?" "What time is it?" = true /\ "What time is it?" <> "".
Proof.
  apply (fallback_questions_hold_question_mark
           ("- What time is it?" ++ nl ++ "- ok")).
  - vm_compute. reflexivity.
  - vm_compute. now left.
Defined.

(** *** Blanks and asterisks around the items *)

Lemma keep_match_bare (matches acc : list string) :
  Forall bare acc -> Forall bare (fold_left keep_match matches acc).
Proof.
  revert acc. induction matches as [|m matches IH]; intros acc Hacc; simpl;
    [exact Hacc|].
  apply IH. unfold keep_match. destruct (truthy (strip m)); [|exact Hacc].
  apply Forall_app. split; [exact Hacc|]. constructor; [|constructor].
  unfold bare, strip_chars, strip_by. split.
  - apply rstrip_by_keeps_first, lstrip_by_first.
  - apply rstrip_by_last.
Qed.

(** X5. On every text, no question kept by the primary strategy starts or
    ends with a blank or an asterisk. *)
Theorem primary_questions_bare (text : string) :
  Forall bare (primary_questions text).
Proof. unfold primary_questions. apply keep_match_bare. constructor. Qed.

End ParserProperties.

(* ===================================================================== *)
(** * Further properties of the two generators                            *)
(* ===================================================================== *)

Module GeneratorProperties.
Import Py Effects Parser Answers Questions Classes PyFacts.
Import Scripted Runs.

Section WithEnv.
Context {World : Type} {E : Env World}.

(** X6. [generate_questions_ollama] lets no [Exception] out: if it raises,
    what it raises is not an [Exception] (it is what the client raised,
    such as a [KeyboardInterrupt]). *)
Theorem generate_questions_raises_no_exception (content : string)
    (num_questions : Z) (model : string) (temperature : float) (max_len : Z)
    (w : World) (e : exception) (w' : World) :
  generate_questions_ollama content num_questions model temperature max_len w
    = (Raise e, w') ->
  is_Exception e = false.
Proof.
  unfold generate_questions_ollama.
  destruct (truthy content); simpl; [|discriminate].
  unfold try_except, bind.
  destruct (ollama_chat _ _ _ w) as [[reply|e0] w0].
  - destruct (nonempty _); discriminate.
  - destruct (is_Exception e0) eqn:He0.
    + destruct e0; discriminate.
    + intros H. inversion H; subst. exact He0.
Qed.

Lemma answer_question_raises_no_exception (question context model : string)
    (temperature : float) (w : World) (e : exception) (w' : World) :
  answer_question_ollama question context model temperature w
    = (Raise e, w') ->
  is_Exception e = false.
Proof.
  unfold answer_question_ollama.
  destruct (truthy context); simpl; [|discriminate].
  destruct (truthy question); simpl; [|discriminate].
  unfold try_except, bind.
  destruct (ollama_chat _ _ _ w) as [[reply|e0] w0]; [discriminate|].
  destruct (is_Exception e0) eqn:He0.
  - destruct e0; discriminate.
  - intros H. inversion H; subst. exact He0.
Qed.

(** What one call returns is trimmed, and so is the fallback string. *)
Lemma answer_question_trimmed (question context model : string)
    (temperature : float) (w : World) (a : string) (w' : World) :
  answer_question_ollama question context model temperature w
    = (Return (Some a), w') ->
  trimmed a.
Proof.
  unfold answer_question_ollama.
  destruct (truthy context); simpl; [|discriminate].
  destruct (truthy question); simpl; [|discriminate].
  unfold try_except, bind.
  destruct (ollama_chat _ _ _ w) as [[reply|e0] w0].
  - intros H. inversion H; subst. unfold trimmed, strip, strip_by. split.
    + apply rstrip_by_keeps_first, lstrip_by_first.
    + apply rstrip_by_last.
  - destruct (is_Exception e0); [destruct e0|]; discriminate.
Qed.

(** The loop of the batch, whatever the calls do. *)
Lemma batch_loop_outcome (document_content model : string)
    (temperature : float) (qs : list string) :
  forall (acc : list string) (w : World),
    match for_each qs
            (answer_and_append document_content model temperature) acc w with
    | (Return out, _) =>
        exists news, out = (acc ++ news)%list
                     /\ List.length news = List.length qs
                     /\ Forall trimmed news
    | (Raise e, _) => is_Exception e = false
    end.
Proof.
  induction qs as [|q qs IH]; intros acc w; simpl.
  - exists []. now rewrite app_nil_r.
  - unfold bind at 1. unfold answer_and_append at 1. unfold bind at 1.
    destruct (answer_question_ollama q document_content model temperature w)
      as [[r|e] w1] eqn:Hcall.
    + unfold ret at 1.
      specialize (IH (acc ++ [match r with
                              | Some a => a
                              | None => answer_fallback
                              end])%list w1).
      destruct (for_each qs _ _ w1) as [[out|e] w2]; [|exact IH].
      destruct IH as (news & -> & Hlen & Htrim).
      eexists (_ :: news). rewrite <- app_assoc. split; [reflexivity|].
      split; [simpl; now rewrite Hlen|]. constructor; [|exact Htrim].
      destruct r as [a|].
      * eapply answer_question_trimmed, Hcall.
      * split; reflexivity.
    + eapply answer_question_raises_no_exception, Hcall.
Qed.

(** X7. Whenever the batch returns, its list is as long as the list of
    questions and none of its entries starts or ends with whitespace. *)
Theorem batch_result_shape (document_content : string) (qs : list string)
    (model : string) (temperature : float) (w : World)
    (answers : list string) (w' : World) :
  answers_questions_ollama document_content qs model temperature w
    = (Return answers, w') ->
  List.length answers = List.length qs /\ Forall trimmed answers.
Proof.
  unfold answers_questions_ollama. intros H.
  pose proof (batch_loop_outcome document_content model temperature qs [] w)
    as Hloop.
  rewrite H in Hloop. destruct Hloop as (news & -> & Hlen & Htrim).
  now split.
Qed.

(** X8. The batch lets no [Exception] out either: one failing call never
    ends it, only what is not an [Exception] does. *)
Theorem batch_raises_no_exception (document_content : string)
    (qs : list string) (model : string) (temperature : float) (w : World)
    (e : exception) (w' : World) :
  answers_questions_ollama document_content qs model temperature w
    = (Raise e, w') ->
  is_Exception e = false.
Proof.
  unfold answers_questions_ollama. intros H.
  pose proof (batch_loop_outcome document_content model temperature qs [] w)
    as Hloop.
  now rewrite H in Hloop.
Qed.

(** Without a document no call reaches the model. *)
Lemma batch_loop_without_document (model : string) (temperature : float)
    (qs : list string) :
  forall (acc : list string) (w : World),
    for_each qs (answer_and_append "" model temperature) acc w
    = (Return (acc ++ map (fun _ => answer_fallback) qs)%list, w).
Proof.
  induction qs as [|q qs IH]; intros acc w; simpl.
  - unfold ret. now rewrite app_nil_r.
  - unfold bind at 1. unfold answer_and_append at 1. unfold bind at 1.
    unfold answer_question_ollama at 1. simpl.
    now rewrite IH, <- app_assoc.
Qed.

(** X9. On an empty document the batch answers every question with the
    fallback string and leaves the world as it was: the model is never
    called. *)
Theorem batch_without_document (qs : list string) (model : string)
    (temperature : float) (w : World) :
  answers_questions_ollama "" qs model temperature w
  = (Return (map (fun _ => "Error occurred while generating this answer.")
               qs), w).
Proof.
  unfold answers_questions_ollama.
  now rewrite batch_loop_without_document.
Qed.

End WithEnv.

Lemma generate_questions_raises_no_exception_witness :
  is_Exception KeyboardInterrupt = false.
Proof.
  apply (generate_questions_raises_no_exception (World := world)
           "Some text." 2 "llama3" 0.5%float 4000 world_interrupted
           KeyboardInterrupt
           (World (Some "Some text.") [Return ["llama3"]; Return ["llama3"]]
              [] [])).
  reflexivity.
Defined.

Lemma batch_result_shape_witness :
  List.length ["A1"; "Error occurred while generating this answer."; "A3"]
  = List.length ["Q1"; "Q2"; "Q3"]
  /\ Forall trimmed
       ["A1"; "Error occurred while generating this answer."; "A3"].
Proof.
  apply (batch_result_shape (World := world) "Some text."
           ["Q1"; "Q2"; "Q3"] "llama3" 0.25%float world_three_replies
           ["A1"; "Error occurred while generating this answer."; "A3"]
           world_spent).
  reflexivity.
Defined.

Lemma batch_raises_no_exception_witness :
  is_Exception KeyboardInterrupt = false.
Proof.
  apply (batch_raises_no_exception (World := world) "Some text."
           ["Q1"] "llama3" 0.25%float world_interrupted KeyboardInterrupt
           (World (Some "Some text.") [Return ["llama3"]; Return ["llama3"]]
              [] [])).
  reflexivity.
Defined.

End GeneratorProperties.

(* ===================================================================== *)
(** * Further properties of the Dataset Formatter                         *)
(* ===================================================================== *)

Module FormatterProperties.
Import Py Effects Dataset Utils PyFacts.
Import Scripted.

Section WithEnv.
Context {World : Type} {E : Env World}.

(** Loops whose bodies agree do the same. *)
Lemma for_each_ext {A S : Type} (xs : list A)
    (body1 body2 : S -> A -> M World S) :
  (forall s x w, body1 s x w = body2 s x w) ->
  forall s w, for_each xs body1 s w = for_each xs body2 s w.
Proof.
  intros Hbody. induction xs as [|x xs IH]; intros s w; simpl;
    [reflexivity|].
  unfold bind. rewrite Hbody.
  destruct (body2 s x w) as [[s'|e] w']; [apply IH | reflexivity].
Qed.

(** A loop over the indices of two lists of one length that appends, for
    each index, records made of the two entries: it never indexes out of
    range and appends the records of every pair in order. *)
Lemma indexed_loop (f : string -> string -> list record)
    (qs : list string) :
  forall (ans done_q done_a : list string) (acc : list record) (w : World),
    List.length done_q = List.length done_a ->
    List.length qs = List.length ans ->
    for_each (seq (List.length done_q) (List.length qs))
      (fun acc i =>
         bind (index (done_q ++ qs) i) (fun q =>
         bind (index (done_a ++ ans) i) (fun a =>
         ret (acc ++ f q a)%list)))
      acc w
    = (Return (acc ++ flat_map (fun qa => f (fst qa) (snd qa))
                        (combine qs ans))%list, w).
Proof.
  induction qs as [|q qs IH]; intros [|a ans] done_q done_a acc w Hd Hl;
    try discriminate; simpl.
  - now rewrite app_nil_r.
  - unfold bind at 1 2 3, index.
    rewrite nth_error_app2, Nat.sub_diag by lia. simpl.
    rewrite Hd, nth_error_app2, Nat.sub_diag by lia. simpl.
    unfold ret at 1.
    specialize (IH ans (done_q ++ [q])%list (done_a ++ [a])%list).
    rewrite !length_app in IH. simpl in IH.
    rewrite <- !app_assoc in IH. simpl in IH.
    rewrite Nat.add_1_r in IH. rewrite <- Hd.
    rewrite IH by (simpl in Hl; lia).
    now rewrite <- app_assoc.
Qed.

Lemma length_flat_map_pairs {A B : Type} (f : A -> list B) (k : nat)
    (l : list A) :
  (forall x, List.length (f x) = k) ->
  List.length (flat_map f l) = k * List.length l.
Proof.
  intros Hf. induction l as [|x l IH]; simpl; [lia|].
  rewrite length_app, Hf, IH. lia.
Qed.

(** X10. On lists of one length [create_default_template] raises nothing
    and returns one record per question, in order: the question under
    "input", its answer under "output". *)
Theorem default_template_records (qs ans : list string) (w : World) :
  List.length qs = List.length ans ->
  exists records,
    create_default_template qs ans w = (Return records, w)
    /\ records = map (fun qa => [("input", fst qa); ("output", snd qa)])
                   (combine qs ans)
    /\ List.length records = List.length qs.
Proof.
  intros Hl. eexists. split; [|split; [reflexivity|]].
  - now apply Formatter.create_default_template_pairs.
  - rewrite length_map, length_combine. lia.
Qed.

Lemma gemma_template_value (qs ans : list string) (w : World) :
  List.length qs = List.length ans ->
  create_gemma_template qs ans w
  = (Return
       (flat_map (fun qa => [[("content", fst qa); ("role", "user")];
                             [("content", snd qa); ("role", "assistant")]])
          (combine qs ans)), w).
Proof.
  intros Hl.
  - unfold create_gemma_template. rewrite Hl, Nat.eqb_refl. simpl.
    rewrite <- Hl.
    rewrite (for_each_ext _ _
               (fun acc i =>
                  bind (index ([] ++ qs) i) (fun q =>
                  bind (index ([] ++ ans) i) (fun a =>
                  ret (acc ++ (fun q a =>
                                 [[("content", q); ("role", "user")];
                                  [("content", a); ("role", "assistant")]])
                                q a)%list)))).
    + exact (indexed_loop _ qs ans [] [] [] w eq_refl Hl).
    + intros acc i w0. simpl. unfold bind.
      destruct (index qs i w0) as [[q|e] w1]; [|reflexivity].
      destruct (index ans i w1) as [[a|e] w2]; [|reflexivity].
      unfold ret. now rewrite <- app_assoc.
Qed.

(** X11. On lists of one length [create_gemma_template] raises nothing and
    returns two records per question, in order: the question with the role
    "user", then its answer with the role "assistant". *)
Theorem gemma_template_records (qs ans : list string) (w : World) :
  List.length qs = List.length ans ->
  exists records,
    create_gemma_template qs ans w = (Return records, w)
    /\ records
       = flat_map (fun qa => [[("content", fst qa); ("role", "user")];
                              [("content", snd qa); ("role", "assistant")]])
           (combine qs ans)
    /\ List.length records = 2 * List.length qs.
Proof.
  intros Hl. eexists. split; [|split; [reflexivity|]].
  - now apply gemma_template_value.
  - rewrite (length_flat_map_pairs _ 2) by reflexivity.
    rewrite length_combine. lia.
Qed.

Lemma llama_template_value (qs ans : list string) (w : World) :
  List.length qs = List.length ans ->
  create_llama_template qs ans w
  = (Return
       [("conversations",
         flat_map (fun qa => [[("from", "human"); ("value", fst qa)];
                              [("from", "gpt"); ("value", snd qa)]])
           (combine qs ans))], w).
Proof.
  intros Hl.
  - unfold create_llama_template. rewrite Hl, Nat.eqb_refl. simpl.
    rewrite <- Hl. unfold bind at 1.
    rewrite (for_each_ext _ _
               (fun acc i =>
                  bind (index ([] ++ qs) i) (fun q =>
                  bind (index ([] ++ ans) i) (fun a =>
                  ret (acc ++ (fun q a =>
                                 [[("from", "human"); ("value", q)];
                                  [("from", "gpt"); ("value", a)]])
                                q a)%list)))).
    + now rewrite (indexed_loop _ qs ans [] [] [] w eq_refl Hl).
    + intros acc i w0. simpl. unfold bind.
      destruct (index qs i w0) as [[q|e] w1]; [|reflexivity].
      destruct (index ans i w1) as [[a|e] w2]; [|reflexivity].
      unfold ret. now rewrite <- app_assoc.
Qed.

(** X12. On lists of one length [create_llama_template] raises nothing and
    returns a dictionary with the one key "conversations", under which
    there are two records per question, in order: the question from
    "human", then its answer from "gpt". *)
Theorem llama_template_records (qs ans : list string) (w : World) :
  List.length qs = List.length ans ->
  exists conversations,
    create_llama_template qs ans w
      = (Return [("conversations", conversations)], w)
    /\ conversations
       = flat_map (fun qa => [[("from", "human"); ("value", fst qa)];
                              [("from", "gpt"); ("value", snd qa)]])
           (combine qs ans)
    /\ List.length conversations = 2 * List.length qs.
Proof.
  intros Hl. eexists. split; [|split; [reflexivity|]].
  - now apply llama_template_value.
  - rewrite (length_flat_map_pairs _ 2) by reflexivity.
    rewrite length_combine. lia.
Qed.

Lemma create_template_value (template : string)
    (qs ans supported : list string) (w : World) :
  exists v, create_template template qs ans supported w = (Return v, w).
Proof.
  unfold create_template.
  destruct (str_in (lower template) supported); cbn [negb]; [|now eexists].
  assert (H1 : exists r, create_default_template qs ans w = (Return r, w)
               /\ exists r, create_gemma_template qs ans w = (Return r, w)
               /\ exists d, create_llama_template qs ans w = (Return d, w)).
  { destruct (Nat.eq_dec (List.length qs) (List.length ans)) as [Hl | Hl].
    - pose proof (Formatter.create_default_template_pairs qs ans w Hl).
      pose proof (gemma_template_value qs ans w Hl).
      pose proof (llama_template_value qs ans w Hl).
      eauto 10.
    - apply Nat.eqb_neq in Hl.
      unfold create_default_template, create_gemma_template,
        create_llama_template.
      rewrite Hl. cbn [negb]. unfold ret. eauto 10. }
  destruct H1 as (r1 & H1 & r2 & H2 & r3 & H3).
  repeat match goal with
         | |- context [if ?b then _ else _] => destruct b
         end;
    unfold bind; rewrite ?H1, ?H2, ?H3; now eexists.
Qed.

(** X13. [create_template] always returns, whatever the kind and the
    lists, and leaves the world as it was: it raises nothing, not even on
    lists of different lengths, and it reads and writes nothing. *)
Theorem create_template_returns (template : string)
    (qs ans supported : list string) (w : World) :
  exists v, create_template template qs ans supported w = (Return v, w).
Proof. apply create_template_value. Qed.

End WithEnv.

Lemma default_template_records_witness :
  exists records,
    create_default_template ["Q1"; "Q2"] ["A1"; "A2"] world_spent
      = (Return records, world_spent)
    /\ records = map (fun qa => [("input", fst qa); ("output", snd qa)])
                   (combine ["Q1"; "Q2"] ["A1"; "A2"])
    /\ List.length records = 2.
Proof.
  apply (default_template_records (World := world)
           ["Q1"; "Q2"] ["A1"; "A2"] world_spent).
  reflexivity.
Defined.

Lemma gemma_template_records_witness :
  exists records,
    create_gemma_template ["Q1"; "Q2"] ["A1"; "A2"] world_spent
      = (Return records, world_spent)
    /\ records
       = flat_map (fun qa => [[("content", fst qa); ("role", "user")];
                              [("content", snd qa); ("role", "assistant")]])
           (combine ["Q1"; "Q2"] ["A1"; "A2"])
    /\ List.length records = 4.
Proof.
  apply (gemma_template_records (World := world)
           ["Q1"; "Q2"] ["A1"; "A2"] world_spent).
  reflexivity.
Defined.

Lemma llama_template_records_witness :
  exists conversations,
    create_llama_template ["Q1"; "Q2"] ["A1"; "A2"] world_spent
      = (Return [("conversations", conversations)], world_spent)
    /\ conversations
       = flat_map (fun qa => [[("from", "human"); ("value", fst qa)];
                              [("from", "gpt"); ("value", snd qa)]])
           (combine ["Q1"; "Q2"] ["A1"; "A2"])
    /\ List.length conversations = 4.
Proof.
  apply (llama_template_records (World := world)
           ["Q1"; "Q2"] ["A1"; "A2"] world_spent).
  reflexivity.
Defined.

End FormatterProperties.

(* ===================================================================== *)
(** * Further properties of the model check and of the Orchestrator       *)
(* ===================================================================== *)

Module OrchestratorProperties.
Import Py Effects Dataset Parser Answers Questions Utils Main PyFacts.
Import Scripted Runs.

Section WithEnv.
Context {World : Type} {E : Env World}.

(** X14. [check_ollama] returns [True] exactly when [ollama.list()]
    answers twice, for the connection check and for the listing, and the
    second answer lists the four models: the two asked for and the two
    defaults. *)
Theorem check_ollama_true_iff (mg mr dg dr : string) (w w' : World) :
  check_ollama mg mr dg dr w = (Return (Some true), w')
  <-> exists names1 w1 names2,
        ollama_list w = (Return names1, w1)
        /\ ollama_list w1 = (Return names2, w')
        /\ str_in mg names2 = true /\ str_in mr names2 = true
        /\ str_in dg names2 = true /\ str_in dr names2 = true.
Proof.
  unfold check_ollama, check_ollama_connection.
  unfold bind at 1. unfold try_except at 1. unfold bind at 1.
  split.
  - destruct (ollama_list w) as [[names1|e1] w1] eqn:H1.
    + unfold ret at 1. cbn [negb]. unfold try_except, bind.
      destruct (ollama_list w1) as [[names2|e2] w2] eqn:H2.
      * destruct (str_in mg names2) eqn:Hmg; cbn [negb]; [|discriminate].
        destruct (str_in mr names2) eqn:Hmr; cbn [negb]; [|discriminate].
        destruct (str_in dg names2) eqn:Hdg; cbn [negb]; [|discriminate].
        destruct (str_in dr names2) eqn:Hdr; cbn [negb]; [|discriminate].
        intros H. inversion H; subst. exists names1, w1, names2.
        repeat split; assumption.
      * destruct (is_Exception e2); discriminate.
    + destruct (is_Exception e1); discriminate.
  - intros (names1 & w1 & names2 & H1 & H2 & Hmg & Hmr & Hdg & Hdr).
    rewrite H1. unfold ret at 1. cbn [negb]. unfold try_except, bind.
    now rewrite H2, Hmg, Hmr, Hdg, Hdr.
Qed.

(** X15. [check_ollama] lets no [Exception] out and never returns
    [False]: it returns [True] or [None], or raises what is not an
    [Exception]. *)
Theorem check_ollama_outcomes (mg mr dg dr : string) (w : World) :
  match check_ollama mg mr dg dr w with
  | (Return r, _) => r = Some true \/ r = None
  | (Raise e, _) => is_Exception e = false
  end.
Proof.
  unfold check_ollama, check_ollama_connection.
  unfold bind at 1. unfold try_except at 1. unfold bind at 1.
  destruct (ollama_list w) as [[names1|e1] w1].
  - unfold ret at 1. cbn [negb]. unfold try_except, bind.
    destruct (ollama_list w1) as [[names2|e2] w2].
    + repeat match goal with
             | |- context [if ?b then _ else _] => destruct b
             end; cbn; auto.
    + destruct (is_Exception e2) eqn:He2; cbn; auto.
  - destruct (is_Exception e1) eqn:He1; cbn; auto.
Qed.

(** What [main] returns is [None], 0 or 1. *)
Lemma main_status (cfg : config) (args : arguments) (w : World) :
  match main cfg args w with
  | (Return st, _) => st = None \/ st = Some 0%Z \/ st = Some 1%Z
  | (Raise _, _) => True
  end.
Proof.
  unfold main. unfold bind at 1.
  destruct (get_document_content _ _ w) as [[[doc|]|e] w1]; cbn; auto.
  destruct (truthy (strip doc)); cbn; auto.
  unfold bind at 1.
  destruct (check_ollama _ _ _ _ w1) as [[[[|]|]|e] w2]; cbn; auto.
  unfold bind at 1.
  destruct (generate_questions_ollama _ _ _ _ _ w2) as [[[qs|]|e] w3];
    cbn; auto.
  destruct (nonempty qs); cbn; auto.
  unfold bind at 1.
  destruct (answers_questions_ollama _ _ _ _ w3) as [[answers|e] w4];
    cbn; auto.
  destruct (nonempty answers); cbn; auto.
  unfold bind at 1.
  destruct (create_template _ _ _ _ w4) as [[data|e] w5]; cbn; auto.
  destruct (value_truthy data && negb (is_str data)); cbn; auto.
  unfold bind.
  destruct (save_dataset _ _ _ w5) as [[[]|e] w6]; cbn; auto.
Qed.

(** X16. Whenever [main] returns, what it returns is [None], 0 or 1, so
    that [sys.exit] is given exit status 0 or 1. *)
Theorem main_returns_status (cfg : config) (args : arguments)
    (w : World) (st : option Z) (w' : World) :
  main cfg args w = (Return st, w') ->
  (st = None \/ st = Some 0%Z \/ st = Some 1%Z)
  /\ (sys_exit st = 0%Z \/ sys_exit st = 1%Z).
Proof.
  intros Hmain. pose proof (main_status cfg args w) as H.
  rewrite Hmain in H. split; [exact H|].
  destruct H as [-> | [-> | ->]]; cbn; auto.
Qed.

(** X17. A run in which every stage succeeds, with the default template:
    [main] hands to [write_dataset] one record per question, the question
    with the answer of the same index, and returns 0.  The answers are as
    many as the questions, so the formatter is not given lists of
    different lengths. *)
Theorem full_run_writes_one_record_per_question (cfg : config)
    (args : arguments) (w w1 w2 w3 w4 w5 : World) (doc : string)
    (qs answers : list string) :
  get_document_content (file args) (SUPPORTED_FILE_TYPES cfg) w
    = (Return (Some doc), w1) ->
  truthy (strip doc) = true ->
  check_ollama (model_gen args) (model_ret args)
    (DEFAULT_GEN_OLLAMA_MODEL cfg) (DEFAULT_RET_OLLAMA_MODEL cfg) w1
    = (Return (Some true), w2) ->
  generate_questions_ollama doc
    (int_or (questions args) (DEFAULT_NUM_QUESTIONS cfg))
    (str_or (model_gen args) (DEFAULT_GEN_OLLAMA_MODEL cfg))
    (float_or (gen_temp args) (DEFAULT_GEN_TEMPERATURE cfg))
    (MAX_GEN_PROMPT_CONTENT_LEN cfg) w2 = (Return (Some qs), w3) ->
  qs <> [] ->
  answers_questions_ollama doc qs
    (str_or (model_ret args) (DEFAULT_RET_OLLAMA_MODEL cfg))
    (float_or (ret_temp args) (DEFAULT_RET_TEMPERATURE cfg)) w3
    = (Return answers, w4) ->
  lower (template args) = "default" ->
  str_in "default" (SUPPORTED_TEMPLATES cfg) = true ->
  write_dataset
    (VList (map (fun qa => [("input", fst qa); ("output", snd qa)])
              (combine qs answers)))
    (str_or (template args) (DEFAULT_TEMPLATE cfg))
    (str_or (output_dir args) (DEFAULT_OUTPUT_DIR cfg)) w4
    = (Return tt, w5) ->
  main cfg args w = (Return (Some 0%Z), w5)
  /\ List.length (combine qs answers) = List.length qs.
Proof.
  intros Hdoc Hne Hcheck Hgen Hqs Hans Hkind Hsupp Hwrite.
  assert (Hlen : List.length answers = List.length qs).
  { pose proof (GeneratorProperties.batch_loop_outcome doc
                  (str_or (model_ret args) (DEFAULT_RET_OLLAMA_MODEL cfg))
                  (float_or (ret_temp args) (DEFAULT_RET_TEMPERATURE cfg))
                  qs [] w3) as Hloop.
    unfold answers_questions_ollama in Hans. rewrite Hans in Hloop.
    now destruct Hloop as (news & -> & Hl & _). }
  split; [|rewrite length_combine; lia].
  unfold main. unfold bind at 1. rewrite Hdoc, Hne. cbn [negb].
  unfold bind at 1. rewrite Hcheck. unfold bind at 1. rewrite Hgen.
  destruct qs as [|q qs]; [congruence|]. cbn [nonempty negb].
  unfold bind at 1. rewrite Hans.
  destruct answers as [|a answers]; [discriminate|]. cbn [nonempty negb].
  unfold bind at 1. unfold create_template.
  rewrite Hkind, Hsupp. cbn [negb String.eqb Ascii.eqb Bool.eqb].
  unfold bind at 1.
  rewrite (Formatter.create_default_template_pairs (q :: qs) (a :: answers) w4)
    by (symmetry; exact Hlen).
  unfold ret at 1. cbn [combine map value_truthy is_str negb andb].
  unfold bind, save_dataset.
  cbn [combine map] in Hwrite. now rewrite Hwrite.
Qed.

(** X18. [main] returns 0 only at the end of a full run: the document was
    read, the model check returned [True], questions were generated and
    answered, as many answers as questions, [create_template] returned a
    value that is neither empty nor a [str], and [write_dataset] was
    called on that value and returned. *)
Theorem exit_zero_after_write (cfg : config) (args : arguments)
    (w w' : World) :
  main cfg args w = (Return (Some 0%Z), w') ->
  exists doc w1 w2 qs w3 answers w4 data,
    get_document_content (file args) (SUPPORTED_FILE_TYPES cfg) w
      = (Return (Some doc), w1)
    /\ check_ollama (model_gen args) (model_ret args)
         (DEFAULT_GEN_OLLAMA_MODEL cfg) (DEFAULT_RET_OLLAMA_MODEL cfg) w1
       = (Return (Some true), w2)
    /\ generate_questions_ollama doc
         (int_or (questions args) (DEFAULT_NUM_QUESTIONS cfg))
         (str_or (model_gen args) (DEFAULT_GEN_OLLAMA_MODEL cfg))
         (float_or (gen_temp args) (DEFAULT_GEN_TEMPERATURE cfg))
         (MAX_GEN_PROMPT_CONTENT_LEN cfg) w2 = (Return (Some qs), w3)
    /\ answers_questions_ollama doc qs
         (str_or (model_ret args) (DEFAULT_RET_OLLAMA_MODEL cfg))
         (float_or (ret_temp args) (DEFAULT_RET_TEMPERATURE cfg)) w3
       = (Return answers, w4)
    /\ qs <> [] /\ List.length answers = List.length qs
    /\ create_template (template args) qs answers (SUPPORTED_TEMPLATES cfg)
         w4 = (Return data, w4)
    /\ value_truthy data = true /\ is_str data = false
    /\ write_dataset data (str_or (template args) (DEFAULT_TEMPLATE cfg))
         (str_or (output_dir args) (DEFAULT_OUTPUT_DIR cfg)) w4
       = (Return tt, w').
Proof.
  unfold main. unfold bind at 1.
  destruct (get_document_content _ _ w) as [[[doc|]|e] w1] eqn:Hdoc;
    [|discriminate|discriminate].
  destruct (truthy (strip doc)); cbn [negb]; [|discriminate].
  unfold bind at 1.
  destruct (check_ollama _ _ _ _ w1) as [[[[|]|]|e] w2] eqn:Hcheck;
    try discriminate.
  unfold bind at 1.
  destruct (generate_questions_ollama _ _ _ _ _ w2) as [[[qs|]|e] w3]
    eqn:Hgen; try discriminate.
  destruct (nonempty qs) eqn:Hqs; cbn [negb]; [|discriminate].
  unfold bind at 1.
  destruct (answers_questions_ollama _ _ _ _ w3) as [[answers|e] w4]
    eqn:Hans; [|discriminate].
  destruct (nonempty answers); cbn [negb]; [|discriminate].
  unfold bind at 1.
  destruct (FormatterProperties.create_template_value (template args) qs
              answers (SUPPORTED_TEMPLATES cfg) w4) as (data & Hdata).
  rewrite Hdata.
  destruct (value_truthy data) eqn:Htruthy; cbn [andb]; [|discriminate].
  destruct (is_str data) eqn:Hstr; cbn [negb]; [discriminate|].
  unfold bind.
  destruct (save_dataset _ _ _ w4) as [[[]|e] w5] eqn:Hsave;
    [|discriminate].
  intros H. inversion H; subst.
  exists doc, w1, w2, qs, w3, answers, w4, data.
  repeat split; try assumption.
  - intros ->. discriminate.
  - pose proof (GeneratorProperties.batch_loop_outcome doc
                  (str_or (model_ret args) (DEFAULT_RET_OLLAMA_MODEL cfg))
                  (float_or (ret_temp args) (DEFAULT_RET_TEMPERATURE cfg))
                  qs [] w3) as Hloop.
    unfold answers_questions_ollama in Hans. rewrite Hans in Hloop.
    now destruct Hloop as (news & -> & Hl & _).
  - unfold save_dataset in Hsave. now destruct data.
Qed.

End WithEnv.

Lemma full_run_writes_one_record_per_question_witness :
  main cfg0 args0 world_full_run = (Return (Some 0%Z), world_full_run_done)
  /\ List.length
       (combine ["What is X?"; "Why Y?"]
          ["X is a letter."; "Error occurred while generating this answer."])
     = 2.
Proof.
  eapply (full_run_writes_one_record_per_question (World := world)
            cfg0 args0 world_full_run _ _ _ _ world_full_run_done
            "Some text." ["What is X?"; "Why Y?"]
            ["X is a letter."; "Error occurred while generating this answer."]).
  - reflexivity.
  - reflexivity.
  - vm_compute. reflexivity.
  - vm_compute. reflexivity.
  - discriminate.
  - vm_compute. reflexivity.
  - reflexivity.
  - reflexivity.
  - reflexivity.
Defined.

Lemma main_returns_status_witness :
  (Some 0%Z = None \/ Some 0%Z = Some 0%Z \/ Some 0%Z = Some 1%Z)
  /\ (sys_exit (Some 0%Z) = 0%Z \/ sys_exit (Some 0%Z) = 1%Z).
Proof.
  apply (main_returns_status (World := world) cfg0 args0 world_full_run
           (Some 0%Z) world_full_run_done).
  vm_compute. reflexivity.
Defined.

Lemma exit_zero_after_write_witness :
  exists doc w1 w2 qs w3 answers w4 data,
    get_document_content (file args0) (SUPPORTED_FILE_TYPES cfg0)
      world_full_run = (Return (Some doc), w1)
    /\ check_ollama (model_gen args0) (model_ret args0)
         (DEFAULT_GEN_OLLAMA_MODEL cfg0) (DEFAULT_RET_OLLAMA_MODEL cfg0) w1
       = (Return (Some true), w2)
    /\ generate_questions_ollama doc
         (int_or (questions args0) (DEFAULT_NUM_QUESTIONS cfg0))
         (str_or (model_gen args0) (DEFAULT_GEN_OLLAMA_MODEL cfg0))
         (float_or (gen_temp args0) (DEFAULT_GEN_TEMPERATURE cfg0))
         (MAX_GEN_PROMPT_CONTENT_LEN cfg0) w2 = (Return (Some qs), w3)
    /\ answers_questions_ollama doc qs
         (str_or (model_ret args0) (DEFAULT_RET_OLLAMA_MODEL cfg0))
         (float_or (ret_temp args0) (DEFAULT_RET_TEMPERATURE cfg0)) w3
       = (Return answers, w4)
    /\ qs <> [] /\ List.length answers = List.length qs
    /\ create_template (template args0) qs answers
         (SUPPORTED_TEMPLATES cfg0) w4 = (Return data, w4)
    /\ value_truthy data = true /\ is_str data = false
    /\ write_dataset data (str_or (template args0) (DEFAULT_TEMPLATE cfg0))
         (str_or (output_dir args0) (DEFAULT_OUTPUT_DIR cfg0)) w4
       = (Return tt, world_full_run_done).
Proof.
  apply (exit_zero_after_write (World := world) cfg0 args0 world_full_run
           world_full_run_done).
  vm_compute. reflexivity.
Defined.

End OrchestratorProperties.

(* ===================================================================== *)
(** * Properties of the document source                                   *)
(* ===================================================================== *)

Module DocumentProperties.
Import Py Effects Documents Classes PyFacts.
Import ParserProperties.

(** *** Lines joined and split again *)

Lemma splitlines_from_line l : forall cur rest,
  forallb_str no_break l = true ->
  splitlines_from cur (l ++ rest) = splitlines_from (cur ++ l) rest.
Proof.
  induction l as [|c l IH]; intros cur rest Hl; simpl.
  - now rewrite app_str_nil.
  - simpl in Hl. apply andb_true_iff in Hl as [Hc Hl].
    unfold no_break in Hc. apply negb_true_iff in Hc. rewrite Hc.
    rewrite IH by exact Hl. now rewrite app_str_assoc.
Qed.

Lemma splitlines_from_nl cur rest :
  splitlines_from cur (nl ++ rest) = cur :: splitlines_from "" rest.
Proof. destruct rest; reflexivity. Qed.

(** Lines that are not empty and hold no line boundary are the lines of
    their join. *)
Lemma splitlines_join (ls : list string) :
  Forall (fun l => l <> "" /\ forallb_str no_break l = true) ls ->
  splitlines (join nl ls) = ls.
Proof.
  unfold splitlines. induction 1 as [|l ls [Hne Hl] Hls IH]; [reflexivity|].
  destruct ls as [|l' ls].
  - simpl. transitivity (splitlines_from "" (l ++ ""));
      [now rewrite app_str_nil|].
    rewrite splitlines_from_line by exact Hl. simpl.
    destruct l; [congruence | reflexivity].
  - change (join nl (l :: l' :: ls)) with (l ++ nl ++ join nl (l' :: ls)).
    rewrite splitlines_from_line by exact Hl. simpl (("" ++ l)%string).
    now rewrite splitlines_from_nl, IH.
Qed.

Lemma rstrip_by_fixed p s : last_char_is p s = false -> rstrip_by p s = s.
Proof.
  induction s as [|c s IH]; [reflexivity|]. intros H.
  destruct s as [|d s'].
  - simpl in *. now rewrite H.
  - change (last_char_is p (String c (String d s')))
      with (last_char_is p (String d s')) in H.
    specialize (IH H). cbn [rstrip_by] in *. now rewrite IH.
Qed.

Lemma strip_idempotent s : strip (strip s) = strip s.
Proof.
  unfold strip at 1. unfold strip_by.
  rewrite lstrip_by_stop by apply FallbackStrategy.strip_first.
  apply rstrip_by_fixed. apply rstrip_by_last.
Qed.

(** The lines the cleanup keeps. *)
Lemma kept_lines_clean text :
  Forall (fun l => (l <> "" /\ forallb_str no_break l = true)
                   /\ strip l = l)
    (kept_lines text).
Proof.
  unfold kept_lines, splitlines.
  pose proof (splitlines_from_no_break (String.length text) text ""
                (le_n _) eq_refl) as Hlines.
  induction Hlines as [|l lines Hl _ IH]; simpl; [constructor|].
  destruct (truthy (strip l)) eqn:Ht; [|exact IH].
  simpl. constructor; [|exact IH]. repeat split.
  - intros Hnil. now rewrite Hnil in Ht.
  - unfold strip. now apply forallb_strip_by.
  - apply strip_idempotent.
Qed.

Lemma kept_lines_fixed (ls : list string) :
  Forall (fun l => (l <> "" /\ forallb_str no_break l = true)
                   /\ strip l = l) ls ->
  map strip (filter (fun line => truthy (strip line)) ls) = ls.
Proof.
  induction 1 as [|l ls [[Hne _] Hs] _ IH]; [reflexivity|]. simpl.
  rewrite Hs. destruct l; [congruence|]. simpl. now rewrite Hs, IH.
Qed.

(** X19. The cleanup of the text of a PDF leaves no blank line and no
    whitespace around a line: the lines of the cleaned text are the kept
    lines, none is empty and each is its own [strip()].  Cleaning a cleaned
    text changes nothing. *)
Theorem cleanup_lines_trimmed (text : string) :
  splitlines (cleanup text) = kept_lines text
  /\ Forall (fun l => l <> "" /\ strip l = l) (splitlines (cleanup text))
  /\ cleanup (cleanup text) = cleanup text.
Proof.
  pose proof (kept_lines_clean text) as Hkept.
  assert (Hsplit : splitlines (cleanup text) = kept_lines text).
  { unfold cleanup. apply splitlines_join.
    eapply Forall_impl; [|exact Hkept]. now intros l [H _]. }
  split; [exact Hsplit|]. split.
  - rewrite Hsplit. eapply Forall_impl; [|exact Hkept].
    now intros l [[H _] Hs].
  - unfold cleanup at 1. unfold kept_lines at 1. rewrite Hsplit.
    now rewrite kept_lines_fixed.
Qed.

(** *** Blank pages *)

Lemma pages_text_blank (pages : list string) :
  Forall (fun page => forallb_str isspace page = true) pages ->
  forall acc, forallb_str isspace acc = true ->
  forallb_str isspace (fold_left add_page pages acc) = true.
Proof.
  induction 1 as [|page pages Hp _ IH]; intros acc Hacc; simpl;
    [exact Hacc|].
  apply IH. unfold add_page. destruct (truthy page); [|exact Hacc].
  now rewrite !forallb_str_app, Hacc, Hp.
Qed.

Lemma cleanup_blank text :
  forallb_str isspace text = true -> cleanup text = "".
Proof.
  intros Hblank. unfold cleanup, kept_lines, splitlines.
  pose proof (FallbackStrategy.splitlines_from_forall isspace
                (String.length text) text "" (le_n _) eq_refl Hblank)
    as Hlines.
  induction Hlines as [|l lines Hl _ IH]; [reflexivity|].
  cbn [filter]. replace (strip l) with "" ; [exact IH|].
  symmetry. now apply strip_by_blank.
Qed.

Section WithFiles.
Context {World : Type} {F : Files World}.

(** X20. A PDF that opens and whose pages hold nothing but whitespace (or
    that has no page) is read as the empty text, not as [None]. *)
Theorem blank_pdf_reads_empty (filepath : string) (w : World)
    (pages : list string) (w' : World) :
  open_pdf filepath w = (Return pages, w') ->
  Forall (fun page => forallb_str isspace page = true) pages ->
  read_pdf_file filepath w = (Return (Some ""), w').
Proof.
  intros Hopen Hblank. unfold read_pdf_file.
  rewrite Hopen. destruct (Nat.eqb (List.length pages) 0); [reflexivity|].
  rewrite cleanup_blank; [reflexivity|].
  now apply pages_text_blank.
Qed.

(** X21. [get_document_content] returns a text only for a path that
    exists and whose extension, in lowercase, is ".txt" or ".pdf".  An
    [Exception] leaves it in one case only: the path is a PDF and the
    library defines no [fitz.FitzError], so that the fourth clause of
    [read_pdf_file] raises; for every other path, and where the library
    defines the name, it lets no [Exception] out. *)
Theorem document_outcomes (filepath : string) (types : list string)
    (w : World) :
  match get_document_content filepath types w with
  | (Return (Some _), _) =>
      os_path_exists filepath w = true
      /\ (lower (snd (os_path_splitext filepath)) = ".txt"
          \/ lower (snd (os_path_splitext filepath)) = ".pdf")
  | (Return None, _) => True
  | (Raise e, _) =>
      is_Exception e = false
      \/ (lower (snd (os_path_splitext filepath)) = ".pdf"
          /\ fitz_has_FitzError = false)
  end.
Proof.
  unfold get_document_content.
  destruct (os_path_exists filepath w); cbn [negb]; [|exact I].
  destruct (String.eqb_spec (lower (snd (os_path_splitext filepath))) ".txt")
    as [Htxt | _].
  - unfold read_text_file, try_except, bind.
    destruct (open_text filepath w) as [[content|e] w1]; cbn; [auto|].
    destruct (is_Exception e) eqn:He; cbn; auto.
  - destruct (String.eqb_spec (lower (snd (os_path_splitext filepath)))
                ".pdf") as [Hpdf | _]; [|exact I].
    unfold read_pdf_file.
    destruct (open_pdf filepath w) as [[pages|e] w1].
    + destruct (Nat.eqb (List.length pages) 0); cbn; auto.
    + destruct (is_Exception e && caught_by_name _); [exact I|].
      destruct fitz_has_FitzError eqn:Hlib; [|cbn; auto].
      destruct (is_Exception e) eqn:He; cbn; auto.
Qed.

(** A failure that none of the three named clauses catches leaves
    [read_pdf_file] as an [Exception] where the library has no
    [fitz.FitzError], whatever was raised. *)
Lemma read_pdf_file_without_FitzError (filepath : string) (w : World)
    (e : exception) (w' : World) :
  open_pdf filepath w = (Raise e, w') ->
  caught_by_name (pdf_failure_class filepath w) = false ->
  fitz_has_FitzError = false ->
  read_pdf_file filepath w = (Raise OtherException, w').
Proof.
  intros Hopen Hclass Hlib. unfold read_pdf_file.
  now rewrite Hopen, Hclass, Hlib, andb_false_r.
Qed.

End WithFiles.

Import Disk.

Lemma blank_pdf_reads_empty_witness :
  read_pdf_file "scan.pdf" disk0 = (Return (Some ""), disk0).
Proof.
  apply (blank_pdf_reads_empty (World := disk) "scan.pdf" disk0
           ["  "; nl]).
  - reflexivity.
  - repeat constructor.
Defined.

(** The document source on the files of [disk0]. *)
Example documents_of_disk0 :
  fst (get_document_content "notes.TXT" [".txt"; ".pdf"] disk0)
    = Return (Some "Some text.")
  /\ fst (get_document_content "paper.pdf" [".txt"; ".pdf"] disk0)
     = Return (Some ("Title" ++ nl ++ "first line" ++ nl ++ "last"))
  /\ fst (get_document_content "image.png" [".txt"; ".pdf"] disk0)
     = Return None
  /\ fst (get_document_content "broken.pdf" [".txt"; ".pdf"] disk0)
     = Raise OtherException
  /\ fst (get_document_content "missing.txt" [".txt"; ".pdf"] disk0)
     = Return None.
Proof. repeat split; vm_compute; reflexivity. Qed.

End DocumentProperties.
